(** * sfcli: the interactive Salesforce navigation session

    A shallow embedding of [src/sfcli/client.py] (class [SalesforceClient])
    and [src/sfcli/interactive.py] (class [InteractiveSession]), followed by
    the properties of the navigation engine, the query constructor, the
    relationship resolver, the sort utility and the field-update path.

    Layout: [Py] holds the fragment of Python the two classes rely on
    (strings, JSON-like values, dictionaries, exceptions, a state-and-error
    monad); [Client] embeds [SalesforceClient]; [Session] embeds
    [InteractiveSession]; the theorems come last. *)

From Stdlib Require Import ZArith List String Ascii Bool Lia.
From Stdlib Require Import Floats DecimalString Permutation Sorted.
From Stdlib Require OrderedTypeEx.
Import ListNotations.

Set Implicit Arguments.
Set Warnings "-register-all".

(* ================================================================== *)
(** * Python primitives *)
(* ================================================================== *)

Module Py.

Open Scope string_scope.

(** Strings are sequences of 8-bit characters.  Text outside ASCII is
    carried through unchanged by every function below; Python's Unicode
    case mapping, Unicode white space and Unicode digits are not part of
    the model. *)

Definition dquote : ascii := ascii_of_nat 34.
Definition newline : ascii := ascii_of_nat 10.
Definition str1 (c : ascii) : string := String c EmptyString.

(** [c.isspace()] on ASCII: TAB..CR, FS..US and the blank. *)
Definition is_space (c : ascii) : bool :=
  let n := nat_of_ascii c in
  ((9 <=? n) && (n <=? 13) || (28 <=? n) && (n <=? 32))%nat.

Definition is_digit (c : ascii) : bool :=
  let n := nat_of_ascii c in ((48 <=? n) && (n <=? 57))%nat.

Definition lower_ascii (c : ascii) : ascii :=
  let n := nat_of_ascii c in
  if ((65 <=? n) && (n <=? 90))%nat then ascii_of_nat (n + 32) else c.

(** [s.lower()] *)
Fixpoint lower (s : string) : string :=
  match s with
  | EmptyString => EmptyString
  | String c s' => String (lower_ascii c) (lower s')
  end.

(** [s.lstrip()], [s.rstrip()], [s.strip()] *)
Fixpoint lstrip (s : string) : string :=
  match s with
  | EmptyString => EmptyString
  | String c s' => if is_space c then lstrip s' else s
  end.

Fixpoint rstrip (s : string) : string :=
  match s with
  | EmptyString => EmptyString
  | String c s' =>
      match rstrip s' with
      | EmptyString => if is_space c then EmptyString else str1 c
      | r => String c r
      end
  end.

Definition strip (s : string) : string := rstrip (lstrip s).

(** [s.startswith(p)], [s.endswith(p)] *)
Definition startswith (s p : string) : bool := prefix p s.

Fixpoint endswith (s p : string) : bool :=
  (s =? p) ||
  match s with
  | EmptyString => false
  | String _ s' => endswith s' p
  end.

(** [sub in s] for strings *)
Definition contains (sub s : string) : bool :=
  match index 0 sub s with
  | Some _ => true
  | None => match sub with EmptyString => true | _ => false end
  end.

(** [s.isdigit()] *)
Fixpoint all_digits (s : string) : bool :=
  match s with
  | EmptyString => true
  | String c s' => is_digit c && all_digits s'
  end.

Definition isdigit (s : string) : bool :=
  match s with
  | EmptyString => false
  | _ => all_digits s
  end.

(** [s.split()]: maximal runs of non-blank characters. *)
Fixpoint split_ws_go (s : string) (cur : option string) : list string :=
  match s with
  | EmptyString => match cur with Some w => [w] | None => [] end
  | String c s' =>
      if is_space c then
        match cur with
        | Some w => w :: split_ws_go s' None
        | None => split_ws_go s' None
        end
      else
        split_ws_go s'
          (Some (match cur with Some w => w ++ str1 c | None => str1 c end))
  end.

Definition split_ws (s : string) : list string := split_ws_go s None.

(** The first blank-delimited word of a string without leading blanks, and
    what follows it. *)
Fixpoint break_word (s : string) : string * string :=
  match s with
  | EmptyString => (EmptyString, EmptyString)
  | String c s' =>
      if is_space c then (EmptyString, s)
      else let (w, r) := break_word s' in (String c w, r)
  end.

(** [s.split(maxsplit=1)]: the first word, then the remainder with its
    leading blanks removed (trailing blanks stay). *)
Definition split_ws1 (s : string) : list string :=
  match lstrip s with
  | EmptyString => []
  | t =>
      let (w, r) := break_word t in
      match lstrip r with
      | EmptyString => [w]
      | r' => [w; r']
      end
  end.

(** [s.split(sep)] for a non-empty separator: every occurrence splits,
    empty pieces are kept.  [skip] counts the characters of a separator
    still to be dropped. *)
Fixpoint split_sep_go (sep s cur : string) (skip : nat) : list string :=
  match s with
  | EmptyString => [cur]
  | String c s' =>
      match skip with
      | S k => split_sep_go sep s' cur k
      | O =>
          if prefix sep s
          then cur :: split_sep_go sep s' EmptyString (String.length sep - 1)
          else split_sep_go sep s' (cur ++ str1 c) 0
      end
  end.

Definition split_sep (s sep : string) : list string :=
  split_sep_go sep s EmptyString 0.

(** [sep.join(parts)] *)
Definition join (sep : string) (parts : list string) : string :=
  String.concat sep parts.

(** [s.replace(old, new)] for a one-character [old]. *)
Fixpoint replace_char (s : string) (old : ascii) (new : string) : string :=
  match s with
  | EmptyString => EmptyString
  | String c s' =>
      (if Ascii.eqb c old then new else str1 c) ++ replace_char s' old new
  end.

(** [str(n)] for an integer. *)
Definition str_of_Z (z : Z) : string := NilZero.string_of_int (Z.to_int z).

(** [int(s)]: blanks around the literal are ignored, one sign is allowed,
    and a single underscore may separate two digits.  [None] stands for the
    [ValueError] Python raises. *)
Fixpoint parse_digits (s : string) (acc : Z) (after_digit : bool) : option Z :=
  match s with
  | EmptyString => if after_digit then Some acc else None
  | String c s' =>
      if Ascii.eqb c "_"%char then
        if after_digit then parse_digits s' acc false else None
      else if is_digit c then
        parse_digits s' (10 * acc + (Z.of_nat (nat_of_ascii c) - 48))%Z true
      else None
  end.

Definition int_of_str (s : string) : option Z :=
  match strip s with
  | String "-"%char r => option_map Z.opp (parse_digits r 0%Z false)
  | String "+"%char r => parse_digits r 0%Z false
  | t => parse_digits t 0%Z false
  end.

(** [repr(s)] for a string: single quotes unless the text has a single
    quote and no double quote; backslash, the chosen quote and control
    characters are escaped. *)
Definition hex_digit (n : nat) : ascii :=
  ascii_of_nat (if (n <? 10)%nat then 48 + n else 87 + n).

Definition escape_char (q c : ascii) : string :=
  let n := nat_of_ascii c in
  if Ascii.eqb c "\"%char then "\\"
  else if Ascii.eqb c q then String "\"%char (str1 q)
  else if (n =? 10)%nat then "\n"
  else if (n =? 13)%nat then "\r"
  else if (n =? 9)%nat then "\t"
  else if ((n <? 32) || (n =? 127))%nat
       then "\x" ++ str1 (hex_digit (n / 16)) ++ str1 (hex_digit (n mod 16))
  else str1 c.

Fixpoint escape (q : ascii) (s : string) : string :=
  match s with
  | EmptyString => EmptyString
  | String c s' => escape_char q c ++ escape q s'
  end.

Definition repr_str (s : string) : string :=
  let q := if contains "'" s && negb (contains (str1 dquote) s)
           then dquote else "'"%char in
  str1 q ++ escape q s ++ str1 q.

(** [str(l)] for a list of strings, as an f-string renders it. *)
Definition str_of_str_list (l : list string) : string :=
  "[" ++ join ", " (map repr_str l) ++ "]".

(** ** Values

    What a decoded JSON document holds: [None], booleans, integers,
    binary64 floats, strings, arrays and objects.  A [dict] keeps its keys
    in insertion order, which the source observes when it iterates over
    [record.keys()]. *)
Inductive value : Type :=
| VNone
| VBool (b : bool)
| VInt (z : Z)
| VFloat (f : float)
| VStr (s : string)
| VList (l : list value)
| VDict (d : list (string * value)).

Definition dict : Type := list (string * value).

(** [d.get(k)] (with [None] for a missing key), [k in d], [d[k] = v]. *)
Fixpoint dict_get (k : string) (d : dict) : option value :=
  match d with
  | [] => None
  | (k', v) :: d' => if (k' =? k)%string then Some v else dict_get k d'
  end.

Definition dict_has (k : string) (d : dict) : bool :=
  match dict_get k d with Some _ => true | None => false end.

Fixpoint dict_set (k : string) (v : value) (d : dict) : dict :=
  match d with
  | [] => [(k, v)]
  | (k', v') :: d' =>
      if (k' =? k)%string then (k, v) :: d' else (k', v') :: dict_set k v d'
  end.

(** [d.get(k, default)] *)
Definition dict_get_or (k : string) (default : value) (d : dict) : value :=
  match dict_get k d with Some v => v | None => default end.

(** Truth value of an object, as [if x:], [not x] and [x or y] test it. *)
Definition truthy (v : value) : bool :=
  match v with
  | VNone => false
  | VBool b => b
  | VInt z => negb (z =? 0)%Z
  | VFloat f => negb (PrimFloat.eqb f 0%float)
  | VStr s => negb (s =? "")%string
  | VList l => match l with [] => false | _ => true end
  | VDict d => match d with [] => false | _ => true end
  end.

(** ** Comparison

    Numbers ([bool], [int], [float]) compare by mathematical value, exactly
    also across [int] and [float]; strings by code point; arrays
    lexicographically.  Every other pairing has equality [False] and raises
    [TypeError] under [<], which [py_lt] reports as [None]. *)
Inductive num : Type := NInt (z : Z) | NFloat (f : float).

Definition as_num (v : value) : option num :=
  match v with
  | VBool b => Some (NInt (Z.b2z b))
  | VInt z => Some (NInt z)
  | VFloat f => Some (NFloat f)
  | _ => None
  end.

(** An integer against a float, [None] when the float is a NaN. *)
Definition Z_cmp_float (z : Z) (f : float) : option comparison :=
  match Prim2SF f with
  | S754_nan => None
  | S754_zero _ => Some (z ?= 0)%Z
  | S754_infinity neg => Some (if neg then Gt else Lt)
  | S754_finite neg m e =>
      let sm := if neg then Zneg m else Zpos m in
      Some (if (0 <=? e)%Z then (z ?= sm * 2 ^ e)%Z
            else (z * 2 ^ (- e) ?= sm)%Z)
  end.

Definition num_eqb (a b : num) : bool :=
  match a, b with
  | NInt x, NInt y => (x =? y)%Z
  | NFloat x, NFloat y => PrimFloat.eqb x y
  | NInt x, NFloat y | NFloat y, NInt x =>
      match Z_cmp_float x y with Some Eq => true | _ => false end
  end.

Definition num_ltb (a b : num) : bool :=
  match a, b with
  | NInt x, NInt y => (x <? y)%Z
  | NFloat x, NFloat y => PrimFloat.ltb x y
  | NInt x, NFloat y =>
      match Z_cmp_float x y with Some Lt => true | _ => false end
  | NFloat x, NInt y =>
      match Z_cmp_float y x with Some Gt => true | _ => false end
  end.

(** [a == b] *)
Fixpoint py_eq (a b : value) {struct a} : bool :=
  match a, b with
  | VNone, VNone => true
  | VStr x, VStr y => (x =? y)%string
  | VList xs, VList ys =>
      (fix all2 (xs ys : list value) {struct xs} : bool :=
         match xs, ys with
         | [], [] => true
         | x :: xs', y :: ys' => py_eq x y && all2 xs' ys'
         | _, _ => false
         end) xs ys
  | VDict xs, VDict ys =>
      (List.length xs =? List.length ys)%nat &&
      (fix sub (xs : list (string * value)) {struct xs} : bool :=
         match xs with
         | [] => true
         | (k, x) :: xs' =>
             match dict_get k ys with
             | Some y => py_eq x y && sub xs'
             | None => false
             end
         end) xs
  | _, _ =>
      match as_num a, as_num b with
      | Some x, Some y => num_eqb x y
      | _, _ => false
      end
  end.

(** [a < b]; [None] is the [TypeError] of an unsupported pairing. *)
Fixpoint py_lt (a b : value) {struct a} : option bool :=
  match a, b with
  | VStr x, VStr y => Some (String.ltb x y)
  | VList xs, VList ys =>
      (fix lex (xs ys : list value) {struct xs} : option bool :=
         match xs, ys with
         | [], [] => Some false
         | [], _ :: _ => Some true
         | _ :: _, [] => Some false
         | x :: xs', y :: ys' => if py_eq x y then lex xs' ys' else py_lt x y
         end) xs ys
  | _, _ =>
      match as_num a, as_num b with
      | Some x, Some y => Some (num_ltb x y)
      | _, _ => None
      end
  end.

(** ** The runtime's float conversions

    [float(s)] (with [None] for its [ValueError]) and [str(f)] are taken
    from the Python runtime as they are. *)
Record runtime : Type := {
  float_of_str : string -> option float;
  str_of_float : float -> string
}.

Section Rendering.
Variable rt : runtime.

(** [repr(v)] and [str(v)] *)
Fixpoint py_repr (v : value) : string :=
  match v with
  | VNone => "None"
  | VBool b => if b then "True" else "False"
  | VInt z => str_of_Z z
  | VFloat f => str_of_float rt f
  | VStr s => repr_str s
  | VList l => "[" ++ join ", " (map py_repr l) ++ "]"
  | VDict d =>
      "{" ++ join ", "
               (map (fun kv => repr_str (fst kv) ++ ": " ++ py_repr (snd kv)) d)
          ++ "}"
  end.

Definition py_str (v : value) : string :=
  match v with
  | VStr s => s
  | _ => py_repr v
  end.
End Rendering.

(** [str(x)] for an [Optional[str]] *)
Definition str_of_opt (o : option string) : string :=
  match o with Some s => s | None => "None" end.

(** ** Exceptions and the state-and-error monad *)
Inductive exn : Type :=
| ValueError (msg : string)
| KeyError (key : string)
| IndexError
| TypeError
| EOFError
| KeyboardInterrupt
| RemoteError (msg : string).

(** [except Exception] lets [KeyboardInterrupt] through; a bare [except:]
    does not. *)
Definition is_Exception (e : exn) : bool :=
  match e with KeyboardInterrupt => false | _ => true end.

Definition is_ValueError (e : exn) : bool :=
  match e with ValueError _ => true | _ => false end.

Definition is_any (e : exn) : bool := true.

Inductive result (A : Type) : Type :=
| Ok (a : A)
| Raise (e : exn).
Arguments Ok {A} a.
Arguments Raise {A} e.

(** A computation over a mutable state [W] that returns or raises; the
    state reached when an exception is raised is kept, as in Python. *)
Definition M (W A : Type) : Type := W -> result A * W.

Definition ret {W A} (a : A) : M W A := fun w => (Ok a, w).
Definition raise {W A} (e : exn) : M W A := fun w => (Raise e, w).
Definition bind {W A B} (m : M W A) (k : A -> M W B) : M W B :=
  fun w => match m w with
           | (Ok a, w') => k a w'
           | (Raise e, w') => (Raise e, w')
           end.
Definition get {W} : M W W := fun w => (Ok w, w).
Definition gets {W A} (f : W -> A) : M W A := fun w => (Ok (f w), w).
Definition modify {W} (f : W -> W) : M W unit := fun w => (Ok tt, f w).

(** [try: m  except <sel>: h] *)
Definition try_except {W A} (sel : exn -> bool) (m : M W A)
    (h : exn -> M W A) : M W A :=
  fun w => match m w with
           | (Ok a, w') => (Ok a, w')
           | (Raise e, w') => if sel e then h e w' else (Raise e, w')
           end.

(** Lift a fallible pure step. *)
Definition lift_result {W A} (r : result A) : M W A := fun w => (r, w).

(** Run a computation on a component of the state. *)
Definition zoom {W V A} (proj : W -> V) (upd : V -> W -> W) (m : M V A)
    : M W A :=
  fun w => let (r, v') := m (proj w) in (r, upd v' w).

Declare Scope py_scope.
Delimit Scope py_scope with py.
Notation "x <- m ;; k" := (bind m (fun x => k))
  (at level 100, m at next level, right associativity) : py_scope.
Notation "m ;;; k" := (bind m (fun _ => k))
  (at level 100, right associativity) : py_scope.

End Py.

(* ================================================================== *)
(** * [SalesforceClient] (src/sfcli/client.py) *)
(* ================================================================== *)

Module Client.
Import Py.
Open Scope string_scope.
Open Scope py_scope.

(** A record is the dictionary the remote store returns for one row. *)
Definition record : Type := dict.

(** ** Object metadata, as [describe()] returns it *)
Record field_desc : Type := {
  fd_name : string;
  fd_type : string;
  fd_referenceTo : list string          (* [field.get('referenceTo', [])] *)
}.

Record child_rel : Type := {
  cr_relationshipName : option string;  (* absent or [null] is [None] *)
  cr_childSObject : string;
  cr_field : string;
  cr_cascadeDelete : option bool
}.

Record metadata : Type := {
  md_fields : list field_desc;
  md_childRelationships : list child_rel  (* [metadata.get(..., [])] *)
}.

(** An entry of [get_child_relationships]'s answer. *)
Record relationship : Type := {
  rel_name : string;
  rel_object : string;
  rel_field : string;
  rel_cascadeDelete : bool
}.

Record query_result : Type := {
  qr_records : list record;
  qr_totalSize : option Z
}.

(** ** The remote store

    [self.sf] is an oracle: each request is answered, or raises, as a
    function of the request and of everything sent before it. *)
Inductive request : Type :=
| ReqSearch (sosl : string)
| ReqQuery (soql : string)
| ReqDescribe (object_type : string)
| ReqGet (object_type record_id : string)
| ReqUpdate (object_type record_id : string) (data : dict).

Record remote : Type := {
  sf_search : list request -> string -> result (option (list record));
  sf_query : list request -> string -> result query_result;
  sf_describe : list request -> string -> result metadata;
  sf_get : list request -> string -> string -> result record;
  sf_update : list request -> string -> string -> dict -> result Z
}.

(** The client's own state: the per-type metadata memo [_object_cache],
    and the requests sent so far, oldest first. *)
Record cstate : Type := {
  object_cache : list (string * metadata);
  sent : list request
}.

Definition cache_lookup (o : string) (c : list (string * metadata))
    : option metadata :=
  option_map snd (find (fun kv => (fst kv =? o)%string) c).

Definition cache_store (o : string) (m : metadata) (st : cstate) : cstate :=
  {| object_cache := object_cache st ++ [(o, m)]; sent := sent st |}.

Definition remote_call {A} (r : request) (f : list request -> result A)
    : M cstate A :=
  fun st => (f (sent st),
             {| object_cache := object_cache st; sent := sent st ++ [r] |}).

(** [str(e)] *)
Definition exn_str (e : exn) : string :=
  match e with
  | ValueError m | RemoteError m => m
  | KeyError k => repr_str k
  | _ => ""
  end.

Definition mem (s : string) (l : list string) : bool :=
  existsb (fun x => (x =? s)%string) l.

Definition nonempty {A} (l : list A) : bool :=
  match l with [] => false | _ => true end.

Definition spaces (n : nat) : string :=
  string_of_list_ascii (repeat " "%char n).

Definition nl : string := str1 newline.

Section Methods.
Variable sf : remote.

(** [query], [execute_query], [get_record] (client.py 164-188, 294-305) *)
Definition query (soql : string) : M cstate query_result :=
  remote_call (ReqQuery soql) (fun h => sf_query sf h soql).


Definition get_record (object_type record_id : string) : M cstate record :=
  remote_call (ReqGet object_type record_id)
              (fun h => sf_get sf h object_type record_id).

(** [update_record] (client.py 190-208) *)
Definition update_record (object_type record_id : string) (data : dict)
    : M cstate bool :=
  try_except is_Exception
    (code <- remote_call (ReqUpdate object_type record_id data)
               (fun h => sf_update sf h object_type record_id data) ;;
     ret ((code =? 200)%Z || (code =? 204)%Z))
    (fun e => raise (ValueError ("Failed to update record: " ++ exn_str e))).

(** [describe_object] (client.py 307-321) *)
Definition describe_object (object_type : string) : M cstate metadata :=
  st <- get ;;
  match cache_lookup object_type (object_cache st) with
  | Some m => ret m
  | None =>
      m <- remote_call (ReqDescribe object_type)
             (fun h => sf_describe sf h object_type) ;;
      modify (cache_store object_type m) ;;;
      ret m
  end.

(** [get_child_relationships] (client.py 323-347) *)
Definition relationships_of (m : metadata) : list relationship :=
  flat_map
    (fun c =>
       match cr_relationshipName c with
       | Some n =>
           if (n =? "")%string then []
           else [{| rel_name := n;
                    rel_object := cr_childSObject c;
                    rel_field := cr_field c;
                    rel_cascadeDelete :=
                      match cr_cascadeDelete c with
                      | Some b => b
                      | None => false
                      end |}]
       | None => []
       end)
    (md_childRelationships m).

Definition get_child_relationships (object_type : string)
    : M cstate (list relationship) :=
  m <- describe_object object_type ;; ret (relationships_of m).

(** [get_field_names] (client.py 349-360) *)
Definition field_names (m : metadata) : list string :=
  map fd_name (md_fields m).

(** [_get_name_field] (client.py 567-581) *)
Definition name_field_of (m : metadata) : string :=
  if existsb (fun f => (fd_name f =? "Name") && (fd_type f =? "string"))
             (md_fields m)
  then "Name"
  else
    match find (fun f => (fd_type f =? "string") && negb (fd_name f =? "Id"))
               (md_fields m) with
    | Some f => fd_name f
    | None => "Id"
    end.

Definition _get_name_field (object_type : string) : M cstate string :=
  m <- describe_object object_type ;; ret (name_field_of m).

(** [_get_query_fields] (client.py 583-611) *)
Definition preferred_fields : list string :=
  ["Name"; "Subject"; "Title"; "Status"; "Type";
   "Priority"; "Description"; "ActivityDate"; "DueDate";
   "Email"; "Phone"; "Company"; "Amount"; "StageName";
   "CloseDate"; "CreatedDate"].

Definition len {A} (l : list A) : Z := Z.of_nat (List.length l).

Definition add_preferred (m : metadata) (max_fields : Z)
    (fields : list string) : list string :=
  fold_left
    (fun acc pref =>
       if mem pref (field_names m) && (len acc <? max_fields)%Z
       then (acc ++ [pref])%list else acc)
    preferred_fields fields.

Fixpoint fill_fields (max_fields : Z) (fs : list field_desc)
    (fields : list string) : list string :=
  match fs with
  | [] => fields
  | f :: fs' =>
      if negb (mem (fd_name f) fields)
         && mem (fd_type f) ["string"; "picklist"; "boolean"]
      then
        let fields' := (fields ++ [fd_name f])%list in
        if (max_fields <=? len fields')%Z then fields'
        else fill_fields max_fields fs' fields'
      else fill_fields max_fields fs' fields
  end.

Definition query_fields_of (m : metadata) (max_fields : Z) : list string :=
  let fields := add_preferred m max_fields ["Id"] in
  if (len fields <? max_fields)%Z
  then fill_fields max_fields (md_fields m) fields
  else fields.

Definition _get_query_fields (object_type : string) (max_fields : Z)
    : M cstate (list string) :=
  m <- describe_object object_type ;; ret (query_fields_of m max_fields).

(** [_get_relationship_field] (client.py 613-673) *)
Definition common_patterns : list (string * string) :=
  [("Account", "AccountId"); ("Opportunity", "OpportunityId");
   ("Contact", "ContactId"); ("Case", "CaseId");
   ("Lead", "LeadId"); ("Campaign", "CampaignId")].

Definition table_get (k : string) (t : list (string * string))
    : option string :=
  option_map snd (find (fun kv => (fst kv =? k)%string) t).

(** The first reference field of the child whose targets include the
    parent (the [WhoId]/[WhatId] branch tests the same condition). *)
Definition reference_to_parent (parent_object : string) (m : metadata)
    : option string :=
  option_map fd_name
    (find (fun f => (fd_type f =? "reference")
                    && mem parent_object (fd_referenceTo f))
          (md_fields m)).

Definition _get_relationship_field
    (parent_object child_object parent_id : string)
    : M cstate (option string) :=
  by_pattern <-
    match table_get parent_object common_patterns with
    | Some pattern =>
        try_except is_any
          (m <- describe_object child_object ;;
           ret (if mem pattern (field_names m) then Some pattern else None))
          (fun _ => ret None)
    | None => ret None
    end ;;
  match by_pattern with
  | Some f => ret (Some f)
  | None =>
      try_except is_Exception
        (m <- describe_object child_object ;;
         match reference_to_parent parent_object m with
         | Some f => ret (Some f)
         | None =>
             let standard_field := parent_object ++ "Id" in
             ret (if mem standard_field (field_names m)
                  then Some standard_field else None)
         end)
        (fun _ => ret None)
  end.

(** ** [search] (client.py 73-162) *)

(** Lines 100-105: the term placed between the braces of [FIND {...}]. *)
Definition search_term (query : string) : string :=
  if startswith query (str1 dquote) && endswith query (str1 dquote)
  then query
  else if contains " " query
       then str1 dquote ++ query ++ str1 dquote
       else query.

Definition account_columns : string :=
  "ParentId, Ultimate_Parent__c, ShippingStreet, ShippingCity, ShippingState, ShippingPostalCode".

(** Lines 91-97 ([name_field] is ["Name"]) and 122-127, 146-151. *)
Definition select_fields (object_type name_field : string)
    (fields : option (list string)) : string :=
  match fields with
  | Some (f :: fs) => join ", " (f :: fs)
  | _ =>
      if (object_type =? "Account")%string
      then "Id, " ++ name_field ++ ", " ++ account_columns
      else "Id, " ++ name_field
  end.

(** Line 107. *)
Definition sosl_query (object_type query : string) (limit : Z)
    (fields : option (list string)) : string :=
  "FIND {" ++ search_term query ++ "} IN ALL FIELDS RETURNING "
    ++ object_type ++ "(" ++ select_fields object_type "Name" fields
    ++ " ORDER BY Name LIMIT " ++ str_of_Z limit ++ ")".

(** The text of the exact-match query (lines 129-135 and 153-159); the
    two sites differ in what they put after [SELECT]. *)
Definition like_soql (selected object_type name_field query : string)
    (limit : Z) : string :=
  nl ++ spaces 16 ++ "SELECT " ++ selected ++
  nl ++ spaces 16 ++ "FROM " ++ object_type ++
  nl ++ spaces 16 ++ "WHERE " ++ name_field ++ " LIKE '%" ++ query ++ "%'" ++
  nl ++ spaces 16 ++ "ORDER BY " ++ name_field ++
  nl ++ spaces 16 ++ "LIMIT " ++ str_of_Z limit ++
  nl ++ spaces 12.

(** [f"{fields}"] for the optional list of field names. *)
Definition str_of_fields (fields : option (list string)) : string :=
  match fields with
  | None => "None"
  | Some l => str_of_str_list l
  end.

Definition search (object_type query : string) (limit : Z)
    (fields : option (list string)) : M cstate (list record) :=
  try_except is_Exception
    (let sosl := sosl_query object_type query limit fields in
     result <- remote_call (ReqSearch sosl) (fun h => sf_search sf h sosl) ;;
     let search_records :=
       match result with Some l => l | None => [] end in
     if nonempty search_records then ret search_records
     else
       name_field <- _get_name_field object_type ;;
       let soql_fields := select_fields object_type name_field fields in
       let soql :=
         like_soql soql_fields object_type name_field query limit in
       result <- remote_call (ReqQuery soql) (fun h => sf_query sf h soql) ;;
       ret (qr_records result))
    (fun _ =>
       name_field <- _get_name_field object_type ;;
       (* [soql_fields] is computed here too (lines 146-151); the query
          text interpolates [fields] instead (line 154). *)
       let soql :=
         like_soql (str_of_fields fields) object_type name_field query
                   limit in
       result <- remote_call (ReqQuery soql) (fun h => sf_query sf h soql) ;;
       ret (qr_records result)).

(** ** [search_with_stats] (client.py 41-71) *)
Definition count_soql (object_type name_field query : string) : string :=
  nl ++ spaces 16 ++ "SELECT COUNT()" ++
  nl ++ spaces 16 ++ "FROM " ++ object_type ++
  nl ++ spaces 16 ++ "WHERE " ++ name_field ++ " LIKE '%" ++ query ++ "%'" ++
  nl ++ spaces 12.

Definition search_with_stats (object_type query : string) (limit : Z)
    (fields : option (list string)) : M cstate (list record * Z) :=
  results <- search object_type query limit fields ;;
  total_count <-
    try_except is_any
      (name_field <- _get_name_field object_type ;;
       let soql := count_soql object_type name_field query in
       count_result <-
         remote_call (ReqQuery soql) (fun h => sf_query sf h soql) ;;
       ret (match qr_totalSize count_result with
            | Some n => n
            | None => len results
            end))
      (fun _ => ret (len results)) ;;
  ret (results, total_count).

(** ** [get_related_records] (client.py 231-292) *)
Definition object_mapping : list (string * string) :=
  [("Contacts", "Contact"); ("Opportunities", "Opportunity");
   ("OpportunityLineItems", "OpportunityLineItem"); ("Cases", "Case");
   ("Tasks", "Task"); ("Events", "Event"); ("Leads", "Lead");
   ("Contracts", "Contract"); ("Orders", "Order"); ("Assets", "Asset");
   ("Invoices", "Invoice"); ("Quotes", "SBQQ__Quote__c");
   ("Accounts", "Account"); ("Products", "Product2")].

(** Lines 250-254: the first declared relationship of that name. *)
Definition declared (relationship_name : string)
    (relationships : list relationship) : option relationship :=
  find (fun rel => (rel_name rel =? relationship_name)%string) relationships.

(** Lines 245-278: the child type and the joining field. *)
Definition resolve_relationship
    (object_type record_id relationship_name : string)
    : M cstate (string * string) :=
  relationships <- get_child_relationships object_type ;;
  let found := declared relationship_name relationships in
  let actual_object :=
    match found with Some rel => rel_object rel | None => "" end in
  let relationship_field :=
    match found with Some rel => Some (rel_field rel) | None => None end in
  resolved <-
    (if (actual_object =? "")%string then
       let actual_object :=
         match table_get relationship_name object_mapping with
         | Some o => o
         | None => relationship_name
         end in
       relationship_field <-
         _get_relationship_field object_type actual_object record_id ;;
       ret (actual_object, relationship_field)
     else ret (actual_object, relationship_field)) ;;
  match snd resolved with
  | Some f =>
      if (f =? "")%string
      then raise (ValueError
                    ("Could not determine relationship field for "
                       ++ relationship_name ++ " to " ++ object_type))
      else ret (fst resolved, f)
  | None =>
      raise (ValueError
               ("Could not determine relationship field for "
                  ++ relationship_name ++ " to " ++ object_type))
  end.

(** Lines 284-289. *)
Definition related_soql (fields_str actual_object relationship_field
    record_id : string) (limit : Z) : string :=
  nl ++ spaces 12 ++ "SELECT " ++ fields_str ++
  nl ++ spaces 12 ++ "FROM " ++ actual_object ++
  nl ++ spaces 12 ++ "WHERE " ++ relationship_field ++ " = '" ++ record_id
     ++ "'" ++
  nl ++ spaces 12 ++ "LIMIT " ++ str_of_Z limit ++
  nl ++ spaces 8.

Definition get_related_records
    (object_type record_id relationship_name : string) (limit : Z)
    : M cstate (list record) :=
  resolved <- resolve_relationship object_type record_id relationship_name ;;
  let (actual_object, relationship_field) := resolved in
  fields <- _get_query_fields actual_object 5 ;;
  let soql :=
    related_soql (join ", " fields) actual_object relationship_field
                 record_id limit in
  result <- remote_call (ReqQuery soql) (fun h => sf_query sf h soql) ;;
  ret (qr_records result).
End Methods.

End Client.

(* ================================================================== *)
(** * [InteractiveSession] (src/sfcli/interactive.py) *)
(* ================================================================== *)

Module Session.
Import Py Client.
Open Scope string_scope.
Open Scope py_scope.

(** ** Navigation frames

    The dictionaries pushed on [navigation_stack], by their ['type']:
    ['search'] (pushed by [_handle_select]), ['record'] (pushed by
    [_handle_related], [_handle_cd], [_handle_parent],
    [_handle_ultimate_parent] and [_handle_children]) and ['related']
    (pushed by [_handle_select_related]).  Only some ['record'] frames
    carry a ['navigation_path'] or a ['records'] entry. *)
Inductive frame : Type :=
| FSearch (object : option string) (records : list record)
          (navigation_path : list string)
| FRecord (object : option string) (rec : option record)
          (records : option (list record))
          (navigation_path : option (list string))
| FRelated (object : option string) (parent_record : option record)
           (related_type : option string) (records : list record)
           (navigation_path : list string).

(** ['navigation_path' in previous_context] and its value. *)
Definition frame_path (f : frame) : option (list string) :=
  match f with
  | FSearch _ _ p => Some p
  | FRecord _ _ _ p => p
  | FRelated _ _ _ _ p => Some p
  end.

(** ** The session (interactive.py 40-52)

    [navigation_stack] is kept with its top, the most recent frame, at the
    head: [append] is [cons] and [pop()] takes the head.  Frames hold the
    records they snapshot by value. *)
Record Session : Type := {
  current_object : option string;
  current_records : list record;
  current_record : option record;
  related_records : list record;
  related_type : option string;
  navigation_stack : list frame;
  navigation_path : list string
}.

Definition initial : Session :=
  {| current_object := None; current_records := []; current_record := None;
     related_records := []; related_type := None;
     navigation_stack := []; navigation_path := [] |}.

(** ** What reaches the terminal *)
Inductive event : Type :=
| EvError (msg : string)                       (* [display_error] *)
| EvInfo (msg : string)                        (* [display_info] *)
| EvSuccess (msg : string)                     (* [display_success] *)
| EvSearchResults (records : list record) (object_type : option string)
                  (total_count : option Z)     (* [display_search_results] *)
| EvRecord (rec : record) (object_type : option string)
                                               (* [display_record] *)
| EvRelated (records : list record) (related_type : option string)
            (parent_name : value)              (* [display_related_records] *)
| EvPrint (text : string)                      (* [console.print] *)
| EvPrompt (text : string)                     (* [pt_prompt] *)
| EvRender (view args : string).               (* a read-only view *)

(** The process: the session, its client, the terminal output so far
    (oldest first) and the lines the operator will type at prompts. *)
Record world : Type := {
  session : Session;
  client : cstate;
  console : list event;
  stdin : list string
}.

Definition on_session (f : Session -> Session) : M world unit :=
  modify (fun w => {| session := f (session w); client := client w;
                      console := console w; stdin := stdin w |}).

Definition emit (e : event) : M world unit :=
  modify (fun w => {| session := session w; client := client w;
                      console := console w ++ [e]; stdin := stdin w |}).

(** A call into the client. *)
Definition call {A} (m : M cstate A) : M world A :=
  zoom client
       (fun c w => {| session := session w; client := c;
                      console := console w; stdin := stdin w |})
       m.

(** [pt_prompt(text)]: the next line typed, [EOFError] at end of input. *)
Definition prompt (text : string) : M world string :=
  fun w =>
    match stdin w with
    | [] => (Raise EOFError, w)
    | line :: rest =>
        (Ok line, {| session := session w; client := client w;
                     console := console w ++ [EvPrompt text];
                     stdin := rest |})
    end.

(** Assignments to the session's attributes. *)
Definition set_current_object (v : option string) : M world unit :=
  on_session (fun s =>
    {| current_object := v; current_records := current_records s;
       current_record := current_record s;
       related_records := related_records s; related_type := related_type s;
       navigation_stack := navigation_stack s;
       navigation_path := navigation_path s |}).

Definition set_current_records (v : list record) : M world unit :=
  on_session (fun s =>
    {| current_object := current_object s; current_records := v;
       current_record := current_record s;
       related_records := related_records s; related_type := related_type s;
       navigation_stack := navigation_stack s;
       navigation_path := navigation_path s |}).

Definition set_current_record (v : option record) : M world unit :=
  on_session (fun s =>
    {| current_object := current_object s;
       current_records := current_records s; current_record := v;
       related_records := related_records s; related_type := related_type s;
       navigation_stack := navigation_stack s;
       navigation_path := navigation_path s |}).

Definition set_related_records (v : list record) : M world unit :=
  on_session (fun s =>
    {| current_object := current_object s;
       current_records := current_records s;
       current_record := current_record s;
       related_records := v; related_type := related_type s;
       navigation_stack := navigation_stack s;
       navigation_path := navigation_path s |}).

Definition set_related_type (v : option string) : M world unit :=
  on_session (fun s =>
    {| current_object := current_object s;
       current_records := current_records s;
       current_record := current_record s;
       related_records := related_records s; related_type := v;
       navigation_stack := navigation_stack s;
       navigation_path := navigation_path s |}).

Definition set_navigation_stack (v : list frame) : M world unit :=
  on_session (fun s =>
    {| current_object := current_object s;
       current_records := current_records s;
       current_record := current_record s;
       related_records := related_records s; related_type := related_type s;
       navigation_stack := v;
       navigation_path := navigation_path s |}).

Definition set_navigation_path (v : list string) : M world unit :=
  on_session (fun s =>
    {| current_object := current_object s;
       current_records := current_records s;
       current_record := current_record s;
       related_records := related_records s; related_type := related_type s;
       navigation_stack := navigation_stack s;
       navigation_path := v |}).

(** [self.navigation_stack.append(f)] *)
Definition push_frame (f : frame) : M world unit :=
  s <- gets session ;; set_navigation_stack (f :: navigation_stack s).

(** Truth value of [self.current_record]: neither [None] nor empty. *)
Definition has_record (r : option record) : bool :=
  match r with Some (_ :: _) => true | _ => false end.

(** [d[k]], raising [KeyError]; on [None] the subscript is a [TypeError]. *)
Definition index_key (k : string) (r : option record) : result value :=
  match r with
  | None => Raise TypeError
  | Some d => match dict_get k d with
              | Some v => Ok v
              | None => Raise (KeyError k)
              end
  end.

(** [r.get(k, default)] on the current record. *)
Definition get_or (k : string) (default : value) (r : option record) : value :=
  match r with Some d => dict_get_or k default d | None => default end.

(** The client's methods take strings: an object type that is [None], or a
    record identifier that is not a string, is a [TypeError] at the call. *)
Definition as_object (o : option string) : result string :=
  match o with Some s => Ok s | None => Raise TypeError end.

Definition as_id (v : value) : result string :=
  match v with VStr s => Ok s | _ => Raise TypeError end.

(** The class constant [RELATIONSHIPS] (interactive.py 31-38). *)
Definition RELATIONSHIPS : list (string * list string) :=
  [("Account", ["Contacts"; "Opportunities"; "Cases"; "Tasks"; "Orders";
                "Contracts"]);
   ("Contact", ["Opportunities"; "Cases"; "Tasks"; "Events"]);
   ("Opportunity", ["OpportunityLineItems"; "Tasks"; "Quotes"; "Contracts"]);
   ("Lead", ["Tasks"; "Events"]);
   ("Case", ["Tasks"; "Events"]);
   ("Campaign", ["Opportunities"; "Leads"])].

Definition relationships_hint (o : option string) : M world unit :=
  match o with
  | Some t =>
      match find (fun kv => (fst kv =? t)%string) RELATIONSHIPS with
      | Some (_, related) =>
          emit (EvPrint ("[dim]Available related objects: "
                           ++ join ", " related ++ "[/dim]")) ;;;
          emit (EvPrint ("[dim]Use 'cd <type>' or 'related <type>' to view related records[/dim]" ++ nl))
      | None => ret tt
      end
  | None => ret tt
  end.

(** ** Sorting: [sorted(records, key=..., reverse=...)]

    The key of a record (interactive.py 861) is the pair
    [(x.get(f) is None, x.get(f) or '')]. *)
Definition sort_key (field_name : string) (x : record) : bool * value :=
  match dict_get field_name x with
  | None | Some VNone => (true, VStr "")
  | Some v => (false, if truthy v then v else VStr "")
  end.

(** [k1 < k2] on such pairs: the first components decide when they
    differ; otherwise equal seconds make the pairs equal, and unequal
    seconds are compared, which may raise. *)
Definition key_lt (k1 k2 : bool * value) : result bool :=
  if Bool.eqb (fst k1) (fst k2) then
    if py_eq (snd k1) (snd k2) then Ok false
    else match py_lt (snd k1) (snd k2) with
         | Some b => Ok b
         | None => Raise TypeError
         end
  else Ok (negb (fst k1) && fst k2).

(** A stable sort by [<] on keys: each element is placed before the first
    element already placed that it is smaller than.  With [reverse] the
    list is reversed before and after, which keeps equal keys in their
    original order.  When every comparison succeeds the outcome is the one
    stable ordering of the input, whichever stable algorithm runs. *)
Fixpoint insert_by {A} (lt : A -> A -> result bool) (x : A) (l : list A)
    : result (list A) :=
  match l with
  | [] => Ok [x]
  | y :: l' =>
      match lt x y with
      | Raise e => Raise e
      | Ok true => Ok (x :: l)
      | Ok false =>
          match insert_by lt x l' with
          | Ok r => Ok (y :: r)
          | Raise e => Raise e
          end
      end
  end.

Fixpoint sort_into {A} (lt : A -> A -> result bool) (todo acc : list A)
    : result (list A) :=
  match todo with
  | [] => Ok acc
  | x :: todo' =>
      match insert_by lt x acc with
      | Ok acc' => sort_into lt todo' acc'
      | Raise e => Raise e
      end
  end.

Definition sorted {A K} (key : A -> K) (lt : K -> K -> result bool)
    (reverse : bool) (l : list A) : result (list A) :=
  let by_key := fun a b => lt (key a) (key b) in
  if reverse then
    match sort_into by_key (rev l) [] with
    | Ok r => Ok (rev r)
    | Raise e => Raise e
    end
  else sort_into by_key l [].

(** ** Update coercion (interactive.py 1009-1021)

    [isinstance(old_value, bool)] is tested before [int], of which [bool]
    is a subclass. *)
Definition true_tokens : list string := ["true"; "1"; "yes"; "t"; "y"].

Definition coerce (rt : runtime) (old_value : value) (new_value : string)
    : value :=
  match old_value with
  | VBool _ => VBool (mem (lower new_value) true_tokens)
  | VInt _ =>
      match int_of_str new_value with
      | Some z => VInt z
      | None => VStr new_value
      end
  | VFloat _ =>
      match float_of_str rt new_value with
      | Some f => VFloat f
      | None => VStr new_value
      end
  | _ => VStr new_value
  end.

(** Lines 996-999: the record's own spelling of a field name. *)
Definition resolve_field (field_name : string) (r : record) : option string :=
  option_map fst
    (find (fun kv => (lower (fst kv) =? lower field_name)%string) r).

(** [s[:-1]] *)
Fixpoint drop_last (s : string) : string :=
  match s with
  | EmptyString => EmptyString
  | String c EmptyString => EmptyString
  | String c s' => String c (drop_last s')
  end.

(** [f"{n:,}"] *)
Fixpoint group3 (rev_digits : list ascii) : list ascii :=
  match rev_digits with
  | a :: b :: c :: rest =>
      match rest with
      | [] => [a; b; c]
      | _ => a :: b :: c :: ","%char :: group3 rest
      end
  | l => l
  end.

Definition str_of_Z_grouped (z : Z) : string :=
  let digits := list_ascii_of_string (str_of_Z (Z.abs z)) in
  (if (z <? 0)%Z then "-" else "")
    ++ string_of_list_ascii (rev (group3 (rev digits))).

(** [[f.strip() for f in args.replace(',', ' ').split()]] when [args] is
    not empty, [[]] otherwise. *)
Definition field_list (args : string) : list string :=
  if (args =? "")%string then []
  else map strip (split_ws (replace_char args ","%char " ")).

Definition opt_eqb (a : option string) (b : string) : bool :=
  match a with Some x => (x =? b)%string | None => false end.

Section Handlers.
Variable rt : runtime.
Variable sf : remote.

(** Views that only render and assign no attribute of the session
    ([_show_help], [_handle_show], [_suggest_query_correction], ...) are
    represented by the event they produce. *)
Definition render (view args : string) : M world unit :=
  emit (EvRender view args).

Definition _handle_show (args : string) : M world unit := render "show" args.

Definition _suggest_query_correction (query : string) : M world unit :=
  render "suggest_query_correction" query.

(** ** [_go_back] (interactive.py 331-379) *)
Definition _go_back : M world unit :=
  s <- gets session ;;
  match navigation_stack s with
  | [] =>
      if nonempty (current_records s) || has_record (current_record s)
         || nonempty (related_records s)
      then
        set_current_object None ;;;
        set_current_records [] ;;;
        set_current_record None ;;;
        set_related_records [] ;;;
        set_related_type None ;;;
        set_navigation_path [] ;;;
        emit (EvInfo "Returned to root")
      else emit (EvInfo "Already at root level")
  | previous_context :: rest =>
      set_navigation_stack rest ;;;
      set_navigation_path
        (match frame_path previous_context with
         | Some p => p
         | None => []
         end) ;;;
      match previous_context with
      | FSearch o records _ =>
          set_current_object o ;;;
          set_current_records records ;;;
          set_current_record None ;;;
          set_related_records [] ;;;
          set_related_type None ;;;
          emit (EvSearchResults records o None) ;;;
          emit (EvInfo "Returned to search results")
      | FRecord o r _ _ =>
          set_current_object o ;;;
          set_current_record r ;;;
          set_current_records [] ;;;
          set_related_records [] ;;;
          set_related_type None
      | FRelated o parent t records _ =>
          set_current_object o ;;;
          set_current_record parent ;;;
          set_related_records records ;;;
          set_related_type t
      end
  end.

(** ** [_handle_search] (interactive.py 381-448) *)

(** Lines 388-399; [None] is the caught [ValueError] or [IndexError]. *)
Definition parse_limit (args : string) : option (string * Z) :=
  if contains "--limit" args then
    let limit_parts := split_sep args "--limit" in
    let args0 := strip (nth 0 limit_parts "") in
    match split_ws (strip (nth 1 limit_parts "")) with
    | [] => None
    | limit_value :: more =>
        match int_of_str limit_value with
        | Some limit => Some (args0 ++ " " ++ join " " more, limit)
        | None => None
        end
    end
  else Some (args, 200%Z).

Definition usage_fields : string :=
  "Usage: search <Object> <query> --fields Field1, Field2, ...".
Definition usage_search : string :=
  "Usage: search <Object> <query> [--fields Field1, Field2, ...] [--limit N]".

(** Lines 402-427: object type, query and custom fields, or the usage
    message shown. *)
Definition parse_query (args : string)
    : string + (string * string * option (list string)) :=
  if contains "--fields" args then
    match split_sep args "--fields" with
    | [p0; p1] =>
        let custom_fields := map strip (split_sep (strip p1) ",") in
        match split_ws1 (strip p0) with
        | [object_type; query] =>
            inr (object_type, query, Some custom_fields)
        | _ => inl usage_fields
        end
    | _ => inl usage_fields
    end
  else
    match split_ws1 args with
    | [object_type; query] => inr (object_type, query, None)
    | _ => inl usage_search
    end.

Definition _handle_search (args : string) : M world unit :=
  if (args =? "")%string then emit (EvError usage_search)
  else
    match parse_limit args with
    | None => emit (EvError "Invalid --limit value. Usage: --limit <number>")
    | Some (args, limit) =>
        match parse_query args with
        | inl usage => emit (EvError usage)
        | inr (object_type, query, custom_fields) =>
            try_except is_Exception
              (set_current_object (Some object_type) ;;;
               found <- call (search_with_stats sf object_type query limit
                                                custom_fields) ;;
               set_current_records (fst found) ;;;
               set_navigation_stack [] ;;;
               set_current_record None ;;;
               set_related_records [] ;;;
               set_related_type None ;;;
               set_navigation_path [] ;;;
               emit (EvSearchResults (fst found) (Some object_type)
                                     (Some (snd found))) ;;;
               if nonempty (fst found)
               then emit (EvInfo "Type a number to view a record (e.g., '1') or 'select <number>'")
               else _suggest_query_correction query)
              (fun e =>
                 emit (EvError ("Search failed: " ++ exn_str e)) ;;;
                 set_current_object None ;;;
                 set_current_records [])
        end
    end.

(** ** [_handle_get] (interactive.py 479-497) *)
Definition _handle_get (args : string) : M world unit :=
  if (args =? "")%string then emit (EvError "Usage: get <Object> <ID>")
  else
    match split_ws args with
    | [object_type; record_id] =>
        try_except is_Exception
          (set_current_object (Some object_type) ;;;
           r <- call (get_record sf object_type record_id) ;;
           set_current_record (Some r) ;;;
           emit (EvRecord r (Some object_type)))
          (fun e => emit (EvError ("Failed to get record: " ++ exn_str e)))
    | _ => emit (EvError "Usage: get <Object> <ID>")
    end.

(** [int(args)] inside a handler. *)
Definition parse_int (args : string) : M world Z :=
  match int_of_str args with
  | Some n => ret n
  | None =>
      raise (ValueError ("invalid literal for int() with base 10: "
                           ++ repr_str args))
  end.

Definition in_range (index : Z) (l : list record) : bool :=
  ((0 <=? index) && (index <? len l))%Z.

Definition record_name (r : record) : value :=
  dict_get_or "Name" (dict_get_or "Id" (VStr "Record") r) r.

(** ** [_handle_select] (interactive.py 562-596) *)
Definition _handle_select (args : string) : M world unit :=
  try_except is_ValueError
    (n <- parse_int args ;;
     let index := (n - 1)%Z in
     s <- gets session ;;
     if in_range index (current_records s) then
       match nth_error (current_records s) (Z.to_nat index) with
       | None => raise IndexError
       | Some record =>
           record_id <- lift_result (index_key "Id" (Some record)) ;;
           push_frame (FSearch (current_object s) (current_records s)
                               (navigation_path s)) ;;;
           o <- lift_result (as_object (current_object s)) ;;
           id <- lift_result (as_id record_id) ;;
           r <- call (get_record sf o id) ;;
           set_current_record (Some r) ;;;
           set_current_records [] ;;;
           set_navigation_path [] ;;;
           emit (EvSuccess ("Selected: " ++ py_str rt (record_name r))) ;;;
           emit (EvPrint "[dim]Use 'view' or 'show all' to see all fields[/dim]") ;;;
           relationships_hint (current_object s)
       end
     else
       emit (EvError ("Invalid selection. Choose a number between 1 and "
                        ++ str_of_Z (len (current_records s)))))
    (fun _ => emit (EvError "Please enter a valid number")).

(** The argument list of a [get_related_records] call as the handlers
    write it: the identifier is subscripted first, then the client runs
    and interpolates it into the query text. *)
Definition fetch_related (s : Session) (relationship_name : string)
    : M world (list record) :=
  id <- lift_result (index_key "Id" (current_record s)) ;;
  o <- lift_result (as_object (current_object s)) ;;
  call (get_related_records sf o (py_str rt id) relationship_name 10).

(** ** [_handle_related] (interactive.py 605-661) *)
Definition _handle_related (args : string) : M world unit :=
  s <- gets session ;;
  if negb (has_record (current_record s))
  then emit (EvError "No record selected")
  else if (args =? "")%string then
    try_except is_Exception
      (o <- lift_result (as_object (current_object s)) ;;
       relationships <- call (get_child_relationships sf o) ;;
       if nonempty relationships
       then render "related" (join ", " (map rel_name relationships))
       else emit (EvInfo "No child relationships found for this object"))
      (fun e => emit (EvError ("Failed to get relationships: " ++ exn_str e)))
  else
    let relationship_name := strip args in
    try_except is_Exception
      (related <- fetch_related s relationship_name ;;
       push_frame (FRecord (current_object s) (current_record s) None None) ;;;
       id <- lift_result (index_key "Id" (current_record s)) ;;
       emit (EvRelated related (Some relationship_name)
                       (get_or "Name" id (current_record s))) ;;;
       set_related_records related ;;;
       set_related_type (Some relationship_name) ;;;
       if nonempty related
       then emit (EvInfo "Use 'select <number>' to view a related record")
       else ret tt)
      (fun e =>
         emit (EvError ("Failed to get related records: " ++ exn_str e))).

(** ** [_handle_cd] (interactive.py 663-730) *)
Definition cd_failed (e : exn) : M world (option (list record * string)) :=
  emit (EvError ("Failed to navigate to related records: " ++ exn_str e)) ;;;
  ret None.

Definition _handle_cd (args : string) : M world unit :=
  s <- gets session ;;
  if negb (has_record (current_record s))
  then emit (EvError "No record selected")
  else
    let relationship_name := strip args in
    let attempt := fun name =>
      related <- fetch_related s name ;; ret (Some (related, name)) in
    fetched <-
      (if endswith relationship_name "__c" then
         let relationship_name_r := drop_last relationship_name ++ "r" in
         try_except is_any (attempt relationship_name_r)
           (fun _ =>
              try_except is_Exception (attempt relationship_name) cd_failed)
       else try_except is_Exception (attempt relationship_name) cd_failed) ;;
    match fetched with
    | None => ret tt
    | Some (related, relationship_name) =>
        try_except is_Exception
          (push_frame (FRecord (current_object s) (current_record s) None
                               (Some (navigation_path s))) ;;;
           set_related_records related ;;;
           set_related_type (Some relationship_name) ;;;
           match navigation_path s with
           | [] =>
               let name :=
                 get_or "Name"
                        (get_or "Id" (VStr "Record") (current_record s))
                        (current_record s) in
               set_navigation_path
                 [str_of_opt (current_object s) ++ ":" ++ py_str rt name;
                  relationship_name]
           | path => set_navigation_path (path ++ [relationship_name])
           end)
          (fun e =>
             emit (EvError ("Failed to navigate to related records: "
                              ++ exn_str e)))
    end.

(** ** [_handle_parent], [_handle_ultimate_parent]
    (interactive.py 1057-1183)

    The two handlers are the same text up to the link field, the columns
    always selected and the messages. *)
Definition account_jump (link : string) (columns : list string)
    (only_account no_link not_found done failed : string) (args : string)
    : M world unit :=
  s <- gets session ;;
  if negb (has_record (current_record s))
  then emit (EvError "No record selected")
  else if negb (opt_eqb (current_object s) "Account")
  then emit (EvError only_account)
  else
    let target_id := get_or link VNone (current_record s) in
    if negb (truthy target_id) then emit (EvInfo no_link)
    else
      try_except is_Exception
        (let field_names := field_list args in
         fetched <-
           (if nonempty field_names then
              let fields_str := join ", " (columns ++ field_names) in
              let soql := "SELECT " ++ fields_str
                            ++ " FROM Account WHERE Id = '"
                            ++ py_str rt target_id ++ "'" in
              result <- call (query sf soql) ;;
              match qr_records result with
              | r :: _ => ret (Some r)
              | [] => emit (EvError not_found) ;;; ret None
              end
            else
              id <- lift_result (as_id target_id) ;;
              r <- call (get_record sf "Account" id) ;;
              ret (Some r)) ;;
         match fetched with
         | None => ret tt
         | Some target =>
             push_frame (FRecord (current_object s) (current_record s)
                                 (Some (current_records s)) None) ;;;
             set_current_record (Some target) ;;;
             set_related_records [] ;;;
             set_related_type None ;;;
             _handle_show
               (if nonempty field_names then args
                else "Id Name ShippingStreet ShippingCity ShippingState") ;;;
             emit (EvSuccess done)
         end)
        (fun e => emit (EvError (failed ++ exn_str e))).

Definition _handle_parent : string -> M world unit :=
  account_jump "ParentId" ["Id"; "ParentId"]
    "Parent navigation only works for Account objects"
    "This account has no parent account"
    "Parent account not found"
    "Navigated to parent account"
    "Failed to navigate to parent: ".

Definition _handle_ultimate_parent : string -> M world unit :=
  account_jump "Ultimate_Parent__c" ["Id"; "ParentId"; "Ultimate_Parent__c"]
    "Ultimate parent navigation only works for Account objects"
    "This account has no ultimate parent account"
    "Ultimate parent account not found"
    "Navigated to ultimate parent account"
    "Failed to navigate to ultimate parent: ".

(** ** [_handle_children] (interactive.py 1185-1253) *)
Definition children_columns (field_names : list string) : string :=
  if nonempty field_names then
    join ", " (["Id"; "ParentId"; "Name"]
                 ++ filter (fun f => negb (mem f ["Id"; "ParentId"; "Name"]))
                           field_names)
  else "Id, ParentId, Name, ShippingStreet, ShippingCity, ShippingState".

Definition _handle_children (args : string) : M world unit :=
  s <- gets session ;;
  if negb (has_record (current_record s))
  then emit (EvError "No record selected")
  else if negb (opt_eqb (current_object s) "Account")
  then emit (EvError "Children navigation only works for Account objects")
  else
    let account_id := get_or "Id" VNone (current_record s) in
    if negb (truthy account_id)
    then emit (EvError "Current record has no ID")
    else
      try_except is_Exception
        (let fields_str := children_columns (field_list args) in
         let count_soql :=
           "SELECT COUNT() FROM Account WHERE ParentId = '"
             ++ py_str rt account_id ++ "'" in
         count_result <- call (query sf count_soql) ;;
         let total_count :=
           match qr_totalSize count_result with
           | Some n => n
           | None => 0%Z
           end in
         if (total_count =? 0)%Z
         then emit (EvInfo "This account has no child accounts")
         else
           let soql :=
             "SELECT " ++ fields_str ++ " FROM Account WHERE ParentId = '"
               ++ py_str rt account_id ++ "' ORDER BY Name LIMIT "
               ++ str_of_Z 50 in
           result <- call (query sf soql) ;;
           let children := qr_records result in
           push_frame (FRecord (current_object s) (current_record s)
                               (Some (current_records s)) None) ;;;
           set_related_records children ;;;
           set_related_type (Some "Account") ;;;
           emit (EvRelated children (Some "Child Accounts")
                           (get_or "Name" (VStr "Unknown")
                                   (current_record s))) ;;;
           (if (len children <? total_count)%Z
            then emit (EvInfo ("Showing " ++ str_of_Z (len children)
                                 ++ " of " ++ str_of_Z_grouped total_count
                                 ++ " total child accounts"))
            else emit (EvInfo ("Found " ++ str_of_Z (len children)
                                 ++ " child account(s)"))) ;;;
           emit (EvInfo "Type a number to view a child account (e.g., '1') or 'select <number>'"))
        (fun e =>
           emit (EvError ("Failed to fetch child accounts: " ++ exn_str e))).

(** ** [_handle_select_related] (interactive.py 1562-1622) *)
Definition select_object_mapping : list (string * string) :=
  [("Contacts", "Contact"); ("Opportunities", "Opportunity");
   ("OpportunityLineItems", "OpportunityLineItem"); ("Cases", "Case");
   ("Tasks", "Task"); ("Events", "Event"); ("Leads", "Lead");
   ("Contracts", "Contract"); ("Orders", "Order"); ("Assets", "Asset");
   ("Quotes", "SBQQ__Quote__c"); ("Accounts", "Account");
   ("Products", "Product2")].

(** [object_mapping.get(self.related_type, self.related_type)] *)
Definition actual_object_of (related_type : option string) : option string :=
  match related_type with
  | Some t =>
      match table_get t select_object_mapping with
      | Some o => Some o
      | None => Some t
      end
  | None => None
  end.

Definition _handle_select_related (args : string) : M world unit :=
  try_except is_Exception
    (n <- parse_int args ;;
     let index := (n - 1)%Z in
     s <- gets session ;;
     if in_range index (related_records s) then
       match nth_error (related_records s) (Z.to_nat index) with
       | None => raise IndexError
       | Some record =>
           record_id <- lift_result (index_key "Id" (Some record)) ;;
           let actual_object := actual_object_of (related_type s) in
           o <- lift_result (as_object actual_object) ;;
           id <- lift_result (as_id record_id) ;;
           full_record <- call (get_record sf o id) ;;
           push_frame (FRelated (current_object s) (current_record s)
                                (related_type s) (related_records s)
                                (navigation_path s)) ;;;
           set_current_object actual_object ;;;
           set_current_record (Some full_record) ;;;
           set_related_records [] ;;;
           set_related_type None ;;;
           set_navigation_path [] ;;;
           emit (EvRecord full_record actual_object) ;;;
           relationships_hint actual_object
       end
     else
       emit (EvError ("Invalid selection. Choose a number between 1 and "
                        ++ str_of_Z (len (related_records s)))))
    (fun e =>
       if is_ValueError e
       then emit (EvError "Please enter a valid number")
       else emit (EvError ("Failed to select related record: "
                             ++ exn_str e))).

(** ** [_handle_update] (interactive.py 976-1055) *)

(** [update_record] wraps whatever goes wrong in the request, a [None]
    object type or a non-string identifier included, in a [ValueError]. *)
Definition commit (o : option string) (id : value) (data : dict)
    : M world bool :=
  match o, id with
  | Some object_type, VStr record_id =>
      call (update_record sf object_type record_id data)
  | _, _ => raise (ValueError "Failed to update record: ")
  end.

Definition _handle_update (args : string) : M world unit :=
  s <- gets session ;;
  match current_record s with
  | Some ((_ :: _) as rec) =>
      if (args =? "")%string
      then emit (EvError "Usage: update <field> <value> (e.g., 'update Phone 555-1234')")
      else
        match split_ws1 args with
        | [field_name; new_value] =>
            match resolve_field field_name rec with
            | Some (String _ _ as actual_field) =>
                let old_value := dict_get_or actual_field VNone rec in
                let new_value_typed := coerce rt old_value new_value in
                emit (EvPrint (nl ++ "[yellow]Update Confirmation:[/yellow]")) ;;;
                id <- lift_result (index_key "Id" (Some rec)) ;;
                emit (EvPrint ("  Record: [cyan]"
                                 ++ py_str rt (dict_get_or "Name" id rec)
                                 ++ "[/cyan]")) ;;;
                emit (EvPrint ("  Field:  [cyan]" ++ actual_field
                                 ++ "[/cyan]")) ;;;
                emit (EvPrint ("  From:   [dim]" ++ py_str rt old_value
                                 ++ "[/dim]")) ;;;
                emit (EvPrint ("  To:     [green]"
                                 ++ py_str rt new_value_typed
                                 ++ "[/green]")) ;;;
                answer <- prompt (nl ++ "Proceed with update? (yes/no): ") ;;
                let confirmation := lower (strip answer) in
                if negb (mem confirmation ["yes"; "y"])
                then emit (EvInfo "Update cancelled")
                else
                  try_except is_Exception
                    (success <- commit (current_object s) id
                                       [(actual_field, new_value_typed)] ;;
                     if success then
                       set_current_record
                         (Some (dict_set actual_field new_value_typed rec)) ;;;
                       emit (EvSuccess ("Successfully updated "
                                          ++ actual_field)) ;;;
                       emit (EvPrint (nl ++ "[cyan]" ++ actual_field
                                        ++ ":[/cyan] "
                                        ++ py_str rt new_value_typed ++ nl))
                     else emit (EvError "Update failed"))
                    (fun e => emit (EvError ("Update failed: " ++ exn_str e)))
            | _ =>
                emit (EvError ("Field '" ++ field_name
                                 ++ "' not found in current record")) ;;;
                emit (EvPrint ("[dim]Use 'fields' to see all available fields[/dim]" ++ nl))
            end
        | _ => emit (EvError "Usage: update <field> <value>")
        end
  | _ => emit (EvError "No record selected")
  end.

(** ** [_sort_records] (interactive.py 845-867)

    [Some l] is the list returned, [None] the [None] returned after an
    error was displayed. *)
Definition _sort_records (records : list record) (field_name : string)
    (descending : bool) : M world (option (list record)) :=
  match records with
  | [] => ret (Some records)
  | first :: _ =>
      if negb (dict_has field_name first) then
        let available_fields :=
          filter (fun k => negb (startswith k "attributes"))
                 (map fst first) in
        emit (EvError ("Field '" ++ field_name
                         ++ "' not found in records.")) ;;;
        emit (EvPrint ("[dim]Available fields: "
                         ++ join ", " available_fields ++ "[/dim]")) ;;;
        ret None
      else
        try_except is_Exception
          (sorted_records <-
             lift_result (sorted (sort_key field_name) key_lt descending
                                 records) ;;
           ret (Some sorted_records))
          (fun e =>
             emit (EvError ("Failed to sort records: " ++ exn_str e)) ;;;
             ret None)
  end.

(** ** [_handle_ls_with_pipe] (interactive.py 793-843) *)
Definition usage_sort : string :=
  "Usage: ls | sort <FieldName> [-desc|-asc]".

(** Lines 796-824: the field and direction, or the message shown. *)
Definition parse_sort (full_command : string) : string + (string * bool) :=
  match split_sep full_command "|" with
  | [_; p1] =>
      let pipe_command := strip p1 in
      if negb (startswith pipe_command "sort")
      then inl ("Only 'sort' is supported after pipe. " ++ usage_sort)
      else
        match split_ws pipe_command with
        | _ :: field_name :: flags =>
            match flags with
            | [] => inr (field_name, false)
            | flag :: _ =>
                if (flag =? "-desc")%string then inr (field_name, true)
                else if (flag =? "-asc")%string then inr (field_name, false)
                else inl "Invalid sort order. Use -desc or -asc"
            end
        | _ => inl usage_sort
        end
  | _ => inl ("Invalid pipe syntax. " ++ usage_sort)
  end.

Definition path_head (s : Session) : value :=
  match navigation_path s with
  | p :: _ => VStr p
  | [] => VStr "Record"
  end.

Definition _handle_ls_with_pipe (full_command : string) : M world unit :=
  match parse_sort full_command with
  | inl msg => emit (EvError msg)
  | inr (field_name, descending) =>
      s <- gets session ;;
      if nonempty (related_records s) then
        sorted_records <-
          _sort_records (related_records s) field_name descending ;;
        match sorted_records with
        | Some l =>
            emit (EvRelated l (related_type s) (path_head s)) ;;;
            if nonempty l
            then emit (EvInfo "Type a number to select a record")
            else ret tt
        | None => ret tt
        end
      else if nonempty (current_records s) then
        sorted_records <-
          _sort_records (current_records s) field_name descending ;;
        match sorted_records with
        | Some l =>
            emit (EvSearchResults l (current_object s) None) ;;;
            if nonempty l
            then emit (EvInfo "Type a number to select a record")
            else ret tt
        | None => ret tt
        end
      else if has_record (current_record s)
      then emit (EvInfo "Cannot sort a single record. Use 'ls' without sort.")
      else emit (EvInfo "No records to display. Use 'search' to find records.")
  end.

(** ** [_execute_command] (interactive.py 179-280)

    [exit] and [quit] raise [EOFError], which ends [run]'s loop. *)
Definition _execute_command (user_input : string) : M world unit :=
  s <- gets session ;;
  if isdigit (strip user_input) then
    if nonempty (related_records s)
    then _handle_select_related (strip user_input)
    else if nonempty (current_records s)
    then _handle_select (strip user_input)
    else emit (EvError "No records to select from. Use 'search' first.")
  else
    match split_ws1 user_input with
    | [] => raise IndexError
    | word :: rest =>
        let command := lower word in
        let args := match rest with a :: _ => a | [] => "" end in
        let cmd := fun c => (command =? c)%string in
        let rec := has_record (current_record s) in
        if cmd "exit" || cmd "quit" then raise EOFError
        else if cmd "help" then render "help" ""
        else if cmd "back" then _go_back
        else if cmd "cd" then
          if (args =? "..")%string then _go_back
          else if negb (args =? "")%string && rec then _handle_cd args
          else if negb (args =? "")%string
          then emit (EvError "No current record. Use 'search' or 'get' first.")
          else emit (EvError "Usage: cd .. (go back) or cd <relationship> (navigate to related records)")
        else if cmd "ls" || cmd "dir" then
          if contains "|" user_input then _handle_ls_with_pipe user_input
          else render "ls" ""
        else if cmd "clear" then render "clear" ""
        else if cmd "search" then _handle_search args
        else if cmd "get" then _handle_get args
        else if cmd "query" then render "query" args
        else if cmd "list" then render "list" args
        else if cmd "select" && nonempty (related_records s)
        then _handle_select_related args
        else if cmd "select" && nonempty (current_records s)
        then _handle_select args
        else if cmd "view" && rec then render "view" ""
        else if cmd "related" && rec then _handle_related args
        else if cmd "fields" && rec then render "fields" ""
        else if cmd "relationships" && rec then render "relationships" ""
        else if cmd "show" && rec then _handle_show args
        else if cmd "update" && rec then _handle_update args
        else if cmd "history" && rec then render "history" args
        else if cmd "parent" && rec then _handle_parent args
        else if cmd "ultimateparent" && rec then _handle_ultimate_parent args
        else if cmd "children" && rec then _handle_children args
        else if cmd "describe" then render "describe" args
        else emit (EvError ("Unknown command: " ++ command
                              ++ ". Type 'help' for available commands."))
    end.
End Handlers.

End Session.

(* ================================================================== *)
(** * Sample data

    A small organisation used to run the model on concrete commands. *)
(* ================================================================== *)

Module Sample.
Import Py Client Session.
Open Scope string_scope.

Definition rt0 : runtime :=
  {| float_of_str := fun _ => None; str_of_float := fun _ => "0.0" |}.

Definition acme : record :=
  [("Id", VStr "001A"); ("Name", VStr "Acme"); ("ParentId", VStr "001P");
   ("Active", VBool true); ("Employees", VInt 40)].

Definition holding : record :=
  [("Id", VStr "001P"); ("Name", VStr "Holding"); ("ParentId", VNone)].

Definition ann : record := [("Id", VStr "003A"); ("Name", VStr "Ann")].
Definition bob : record := [("Id", VStr "003B"); ("Name", VStr "Bob")].

Definition text_field (n : string) : field_desc :=
  {| fd_name := n; fd_type := "string"; fd_referenceTo := [] |}.

Definition account_metadata : metadata :=
  {| md_fields :=
       [{| fd_name := "Id"; fd_type := "id"; fd_referenceTo := [] |};
        text_field "Name"];
     md_childRelationships :=
       [{| cr_relationshipName := Some "Contacts";
           cr_childSObject := "Contact";
           cr_field := "ReportsToAccountId";
           cr_cascadeDelete := Some true |}] |}.

Definition contact_metadata : metadata :=
  {| md_fields :=
       [{| fd_name := "Id"; fd_type := "id"; fd_referenceTo := [] |};
        text_field "Name";
        {| fd_name := "AccountId"; fd_type := "reference";
           fd_referenceTo := ["Account"] |}];
     md_childRelationships := [] |}.

(** A store that answers every request. *)
Definition sf_up : remote :=
  {| sf_search := fun _ _ => Ok (Some [acme; holding]);
     sf_query := fun _ _ =>
       Ok {| qr_records := [ann; bob]; qr_totalSize := Some 2%Z |};
     sf_describe := fun _ o =>
       if (o =? "Account")%string then Ok account_metadata
       else Ok contact_metadata;
     sf_get := fun _ o _ =>
       if (o =? "Account")%string then Ok acme else Ok ann;
     sf_update := fun _ _ _ _ => Ok 204%Z |}.

(** A store whose every request fails. *)
Definition sf_down : remote :=
  {| sf_search := fun _ _ => Raise (RemoteError "down");
     sf_query := fun _ _ => Raise (RemoteError "down");
     sf_describe := fun _ _ => Raise (RemoteError "down");
     sf_get := fun _ _ _ => Raise (RemoteError "down");
     sf_update := fun _ _ _ _ => Raise (RemoteError "down") |}.

(** A store whose full-text search fails and whose queries work. *)
Definition sf_no_search : remote :=
  {| sf_search := fun _ _ => Raise (RemoteError "search unavailable");
     sf_query := sf_query sf_up;
     sf_describe := sf_describe sf_up;
     sf_get := sf_get sf_up;
     sf_update := sf_update sf_up |}.

Definition fresh_client : cstate := {| object_cache := []; sent := [] |}.

Definition world_of (s : Session) (typed : list string) : world :=
  {| session := s; client := fresh_client; console := []; stdin := typed |}.

(** Run a list of command lines, ignoring what each returns or raises. *)
Definition run_all (sf : remote) (lines : list string) (w : world) : world :=
  fold_left (fun w line => snd (_execute_command rt0 sf line w)) lines w.

(** Results shown for ["Account"]. *)
Definition results_shown : Session :=
  {| current_object := Some "Account"; current_records := [acme; holding];
     current_record := None; related_records := []; related_type := None;
     navigation_stack := []; navigation_path := [] |}.

(** ["Acme"] selected from those results. *)
Definition record_shown : Session :=
  {| current_object := Some "Account"; current_records := [];
     current_record := Some acme; related_records := [];
     related_type := None;
     navigation_stack := [FSearch (Some "Account") [acme; holding] []];
     navigation_path := [] |}.

(** ["cd Contacts"] from there. *)
Definition related_shown : Session :=
  {| current_object := Some "Account"; current_records := [];
     current_record := Some acme; related_records := [ann; bob];
     related_type := Some "Contacts";
     navigation_stack :=
       [FRecord (Some "Account") (Some acme) None (Some []);
        FSearch (Some "Account") [acme; holding] []];
     navigation_path := ["Account:Acme"; "Contacts"] |}.


End Sample.

(* ================================================================== *)
(** * Vocabulary of the statements *)
(* ================================================================== *)

Module Notions.
Import Py Client Session.
Open Scope string_scope.


(** The world after one more event on the terminal. *)
Definition shown (e : event) (w : world) : world :=
  {| session := session w; client := client w;
     console := (console w ++ [e])%list; stdin := stdin w |}.

Definition shown_error (msg : string) (w : world) : world :=
  shown (EvError msg) w.

Definition invalid_selection (l : list record) : event :=
  EvError ("Invalid selection. Choose a number between 1 and "
             ++ str_of_Z (len l)).

(** The list a bare number selects from. *)
Definition active_list (s : Session) : list record :=
  if nonempty (related_records s) then related_records s
  else current_records s.



(** ** Sorting vocabulary *)









(** ** Navigation vocabulary *)





(** The commands that push a frame. *)
Inductive forward : Type :=
| BySelect            (* [select] on search results *)
| ByCd
| ByRelated
| BySelectRelated     (* [select] on a related list *)
| ByParent
| ByUltimateParent
| ByChildren.

Definition run_forward (rt : runtime) (sf : remote) (c : forward)
    (args : string) : M world unit :=
  match c with
  | BySelect => _handle_select rt sf args
  | ByCd => _handle_cd rt sf args
  | ByRelated => _handle_related rt sf args
  | BySelectRelated => _handle_select_related sf args
  | ByParent => _handle_parent rt sf args
  | ByUltimateParent => _handle_ultimate_parent rt sf args
  | ByChildren => _handle_children rt sf args
  end.

(** The frame the command pushes carries the breadcrumb. *)
Definition carries_breadcrumb (c : forward) : bool :=
  match c with
  | BySelect | ByCd | BySelectRelated => true
  | _ => false
  end.

(** The part of the session the pushed frame does not snapshot is empty:
    no record beside search results; no list beside a record (and, for a
    frame without breadcrumb, no breadcrumb). *)
Definition plain_before (c : forward) (s : Session) : Prop :=
  match c with
  | BySelect =>
      current_record s = None /\ related_records s = []
      /\ related_type s = None
  | BySelectRelated => True
  | ByCd =>
      current_records s = [] /\ related_records s = []
      /\ related_type s = None
  | _ =>
      current_records s = [] /\ related_records s = []
      /\ related_type s = None /\ navigation_path s = []
  end.

(** What [back] restores of the session [s] the command was issued in,
    where [s2] is the session after the command and [back]. *)
Definition restored (c : forward) (s s2 : Session) : Prop :=
  navigation_stack s2 = navigation_stack s
  /\ current_object s2 = current_object s
  /\ (c <> BySelect -> current_record s2 = current_record s)
  /\ (c = BySelect -> current_records s2 = current_records s)
  /\ navigation_path s2
     = (if carries_breadcrumb c then navigation_path s else [])
  /\ (plain_before c s -> s2 = s).

(** Either nothing was pushed, or [back] restores the snapshot. *)
Definition pushes_restorable (c : forward) (h : M world unit) : Prop :=
  forall w,
    navigation_stack (session (snd (h w))) = navigation_stack (session w)
    \/ restored c (session w) (session (snd (_go_back (snd (h w))))).

End Notions.

(* ================================================================== *)
(** * The rest of [SalesforceClient] and of [InteractiveSession] *)
(* ================================================================== *)

Module ClientMore.
Import Py Client.
Open Scope string_scope.
Open Scope py_scope.

(** [get_common_fields]'s patterns (client.py 552-553). *)
Definition common_field_patterns : list string :=
  ["Name"; "Id"; "Email"; "Phone"; "Type"; "Status";
   "Owner"; "CreatedDate"; "LastModifiedDate"; "Description"].

(** Lines 559-563: the test a field name passes to be listed. *)
Definition is_common (field_name : string) : bool :=
  if mem field_name ["Id"; "Name"] then true
  else existsb (fun pattern => contains pattern field_name)
               common_field_patterns.

Definition common_fields_of (m : metadata) : list string :=
  firstn 20 (filter is_common (field_names m)).

(** The text of the history query (client.py 495-510); the [Field]
    condition is there when [field_name] is neither [None] nor empty. *)
Definition history_soql (object_type record_id : string)
    (field_name : option string) (limit : Z) : string :=
  let history_object := object_type ++ "History" in
  let parent_field := object_type ++ "Id" in
  nl ++ spaces 20
     ++ "SELECT Id, Field, OldValue, NewValue, CreatedDate, CreatedBy.Name" ++
  nl ++ spaces 20 ++ "FROM " ++ history_object ++
  nl ++ spaces 20 ++ "WHERE " ++ parent_field ++ " = '" ++ record_id ++ "'"
     ++ match field_name with
        | Some (String _ _ as f) => " AND Field = '" ++ f ++ "'"
        | _ => ""
        end ++
  nl ++ spaces 20 ++ "ORDER BY CreatedDate DESC" ++
  nl ++ spaces 20 ++ "LIMIT " ++ str_of_Z limit ++
  nl ++ spaces 16.

Section Methods.
Variable sf : remote.

(** [get_field_names] (client.py 349-360) *)
Definition get_field_names (object_type : string) : M cstate (list string) :=
  m <- describe_object sf object_type ;; ret (field_names m).

(** [get_common_fields] (client.py 539-565) *)
Definition get_common_fields (object_type : string)
    : M cstate (list string) :=
  m <- describe_object sf object_type ;; ret (common_fields_of m).

(** [get_field_history] (client.py 471-516) *)
Definition get_field_history (object_type record_id : string)
    (field_name : option string) (limit : Z) : M cstate (list record) :=
  try_except is_Exception
    (let soql := history_soql object_type record_id field_name limit in
     result <- remote_call (ReqQuery soql) (fun h => sf_query sf h soql) ;;
     ret (qr_records result))
    (fun _ => ret []).
End Methods.

End ClientMore.

Module SessionMore.
Import Py Client Session ClientMore.
Open Scope string_scope.
Open Scope py_scope.

(** The class constant [COMMON_OBJECTS] (interactive.py 23-28). *)
Definition COMMON_OBJECTS : list string :=
  ["Account"; "Contact"; "Opportunity"; "Lead"; "Case";
   "Task"; "Event"; "Campaign"; "User"; "Contract";
   "Order"; "Product2"; "Pricebook2"; "Quote"; "Asset";
   "OpportunityLineItem"; "OrderItem"; "ContentDocument"].

(** [_get_completer]'s word lists (interactive.py 141, 164). *)
Definition base_commands : list string :=
  ["search"; "get"; "list"; "query"; "help"; "exit"; "back"; "clear";
   "update"; "describe"; "cd"; "ls"; "dir"; "--fields"; "--limit"].

Definition record_commands : list string :=
  ["view"; "related"; "relationships"; "fields"; "show"; "history";
   "parent"; "ultimateparent"; "children"; "all"].

(** Lines 153-156: each relationship name that ends in [__r] is offered
    a second time with its last letter replaced by [c]; the added names
    follow the declared ones. *)
Definition with_aliases (relationship_names : list string) : list string :=
  (relationship_names
     ++ map (fun rel_name => (drop_last rel_name ++ "c")%string)
            (filter (fun rel_name => endswith rel_name "__r")
                    relationship_names))%list.

(** Lines 159-160. *)
Definition static_relationships (o : option string) : list string :=
  match o with
  | Some t =>
      match find (fun kv => (fst kv =? t)%string) RELATIONSHIPS with
      | Some (_, related) => related
      | None => []
      end
  | None => []
  end.

(** Truth value of [self.current_object]. *)
Definition has_object (o : option string) : bool :=
  match o with Some (String _ _) => true | _ => false end.

Section Handlers.
Variable sf : remote.

(** ** [_get_completer] (interactive.py 139-177)

    The words handed to the [WordCompleter]. *)
Definition _get_completer : M world (list string) :=
  s <- gets session ;;
  if nonempty (related_records s)
  then ret (base_commands ++ ["select"; "view"])%list
  else if has_record (current_record s) then
    relationship_names <-
      try_except is_any
        (o <- lift_result (as_object (current_object s)) ;;
         relationships <- call (get_child_relationships sf o) ;;
         ret (with_aliases (map rel_name relationships)))
        (fun _ => ret (static_relationships (current_object s))) ;;
    let field_names :=
      match current_record s with Some d => map fst d | None => [] end in
    ret (base_commands ++ record_commands ++ relationship_names
           ++ field_names)%list
  else if nonempty (current_records s)
  then ret (base_commands ++ ["select"])%list
  else if has_object (current_object s) then
    try_except is_any
      (o <- lift_result (as_object (current_object s)) ;;
       object_field_names <- call (get_field_names sf o) ;;
       ret (base_commands ++ COMMON_OBJECTS ++ object_field_names)%list)
      (fun _ => ret (base_commands ++ COMMON_OBJECTS)%list)
  else ret (base_commands ++ COMMON_OBJECTS)%list.

End Handlers.

End SessionMore.

Module MoreNotions.
Import Py Client Session.
Open Scope string_scope.



(** The client with one more request in its log. *)
Definition after_request (r : request) (st : cstate) : cstate :=
  {| object_cache := object_cache st; sent := (sent st ++ [r])%list |}.

(** The fields picked so far for a query: [Id] first, no name twice, no
    more than the maximum (one at least), every name [Id] or a field of
    the object. *)
Definition picked (m : metadata) (max_fields : Z) (fields : list string)
    : Prop :=
  (exists rest, fields = "Id" :: rest)
  /\ NoDup fields
  /\ (len fields <= Z.max 1 max_fields)%Z
  /\ forall f, In f fields -> f = "Id" \/ In f (field_names m).

(** No character of the string is white space. *)
Fixpoint no_blank (s : string) : bool :=
  match s with
  | EmptyString => true
  | String c s' => negb (is_space c) && no_blank s'
  end.


(** The session with another object type, and with another current
    record. *)
Definition with_object (o : option string) (s : Session) : Session :=
  {| current_object := o; current_records := current_records s;
     current_record := current_record s;
     related_records := related_records s; related_type := related_type s;
     navigation_stack := navigation_stack s;
     navigation_path := navigation_path s |}.

Definition with_record (r : option record) (s : Session) : Session :=
  {| current_object := current_object s;
     current_records := current_records s; current_record := r;
     related_records := related_records s; related_type := related_type s;
     navigation_stack := navigation_stack s;
     navigation_path := navigation_path s |}.

(** The session with one more frame on its navigation stack. *)
Definition with_frame (f : frame) (s : Session) : Session :=
  {| current_object := current_object s;
     current_records := current_records s;
     current_record := current_record s;
     related_records := related_records s; related_type := related_type s;
     navigation_stack := f :: navigation_stack s;
     navigation_path := navigation_path s |}.

(** The commands [_execute_command] runs only while a record is
    current. *)
Definition record_only : list string :=
  ["view"; "related"; "fields"; "relationships"; "show"; "update";
   "history"; "parent"; "ultimateparent"; "children"].


End MoreNotions.

(* ================================================================== *)
(** * The tables of [src/sfcli/display.py] *)
(* ================================================================== *)

Module Display.
Import Py Client Session.
Open Scope string_scope.

(** What is handed to the console: a line of text, a table given by its
    title, its column headers and its rows of cells, or a panel given by
    its title and its text. *)
Inductive printed : Type :=
| Text (s : string)
| Table (title : string) (columns : list string) (rows : list (list value))
| Panel (title content : string).

(** [len(x)], a [TypeError] on what has no length. *)
Definition py_len (v : value) : result Z :=
  match v with
  | VStr s => Ok (Z.of_nat (String.length s))
  | VList l => Ok (len l)
  | VDict d => Ok (len d)
  | _ => Raise TypeError
  end.

Section Rendering.
Variable rt : runtime.

(** [make_id_clickable] (display.py 34-48) *)
Definition make_id_clickable (salesforce_id : value) : result value :=
  if truthy salesforce_id then
    match py_len salesforce_id with
    | Ok n =>
        if (n =? 15)%Z || (n =? 18)%Z then
          let url := "https://axalta.lightning.force.com/"
                       ++ py_str rt salesforce_id in
          Ok (VStr ("[link=" ++ url ++ "]" ++ py_str rt salesforce_id
                      ++ "[/link]"))
        else Ok salesforce_id
    | Raise e => Raise e
    end
  else Ok salesforce_id.

(** The columns after [#] and [ID]: the keys of the first record but
    [attributes] and [Id] (display.py 77). *)
Definition dynamic_columns (first : record) : list string :=
  filter (fun k => negb (mem k ["attributes"; "Id"])) (map fst first).

(** One row (display.py 83-88). *)
Definition row_data (field_names : list string) (idx : Z) (record : record)
    : result (list value) :=
  let record_id := dict_get_or "Id" (VStr "") record in
  match (if truthy record_id then make_id_clickable record_id
         else Ok (VStr "")) with
  | Raise e => Raise e
  | Ok clickable_id =>
      Ok (VStr (str_of_Z idx) :: clickable_id
            :: map (fun field =>
                      let value := dict_get_or field (VStr "") record in
                      VStr (if truthy value then py_str rt value else ""))
                   field_names)
  end.

(** The rows for [enumerate(records, idx)]. *)
Fixpoint rows_from (field_names : list string) (idx : Z)
    (records : list record) : result (list (list value)) :=
  match records with
  | [] => Ok []
  | record :: rest =>
      match row_data field_names idx record with
      | Raise e => Raise e
      | Ok row =>
          match rows_from field_names (idx + 1) rest with
          | Raise e => Raise e
          | Ok rows => Ok (row :: rows)
          end
      end
  end.

(** [display_search_results] (display.py 51-97): what it prints, or the
    exception raised before anything is printed. *)
Definition display_search_results (records : list record)
    (object_type : option string) (total_count : option Z)
    : result (list printed) :=
  match records with
  | [] => Ok [Text (nl ++ "[yellow]No results found[/yellow]" ++ nl)]
  | first :: _ =>
      let field_names := dynamic_columns first in
      match rows_from field_names 1 records with
      | Raise e => Raise e
      | Ok rows =>
          Ok ([Text "";
               Table (str_of_opt object_type ++ " Search Results")
                     ("#" :: "ID" :: field_names) rows]
                ++ match total_count with
                   | Some total =>
                       if negb (total =? 0)%Z && (len records <? total)%Z
                       then
                         [Text (nl ++ "[dim]Showing " ++ str_of_Z (len records)
                                  ++ " of " ++ str_of_Z_grouped total
                                  ++ " matching records[/dim]");
                          Text ("[dim]Use --limit to see more results (e.g., --limit 500)[/dim]" ++ nl)]
                       else
                         [Text (nl ++ "[dim]Found " ++ str_of_Z (len records)
                                  ++ " record(s)[/dim]" ++ nl)]
                   | None =>
                       [Text (nl ++ "[dim]Found " ++ str_of_Z (len records)
                                ++ " record(s)[/dim]" ++ nl)]
                   end)%list
      end
  end.





End Rendering.

End Display.

(* ================================================================== *)
(** * [describe_detailed] (client.py 362-469) *)
(* ================================================================== *)

Module Describe.
Import Py Client.
Open Scope string_scope.

(** A field of the metadata, with the keys [describe_detailed] reads;
    the keys it reads with [.get] may be absent. *)
Record field_meta : Type := {
  fm_name : string;
  fm_label : string;
  fm_type : string;
  fm_length : value;                    (* [None] when absent *)
  fm_precision : value;
  fm_scale : value;
  fm_nillable : bool;
  fm_defaultedOnCreate : bool;
  fm_unique : option bool;
  fm_externalId : option bool;
  fm_calculated : bool;
  fm_custom : bool;
  fm_picklistValues : list string;      (* the ['value'] of each entry *)
  fm_referenceTo : list string;         (* [[]] when absent *)
  fm_relationshipName : option string;  (* absent or [null] is [None] *)
  fm_inlineHelpText : option string
}.

(** The object's metadata, with the keys [describe_detailed] reads. *)
Record object_meta : Type := {
  om_name : string;
  om_label : string;
  om_labelPlural : string;
  om_custom : bool;
  om_queryable : bool;
  om_searchable : bool;
  om_createable : bool;
  om_updateable : bool;
  om_deletable : bool;
  om_undeletable : option bool;
  om_triggerable : option bool;
  om_recordTypeInfos : list value;      (* [[]] when absent *)
  om_fields : list field_meta;
  om_childRelationships : list child_rel
}.

(** What the other methods of the client see of it. *)
Definition basic (m : object_meta) : metadata :=
  {| md_fields :=
       map (fun f => {| fd_name := fm_name f; fd_type := fm_type f;
                        fd_referenceTo := fm_referenceTo f |})
           (om_fields m);
     md_childRelationships := om_childRelationships m |}.

(** Lines 386-401. *)
Record field_info : Type := {
  fi_name : string;
  fi_label : string;
  fi_type : string;
  fi_length : value;
  fi_precision : value;
  fi_scale : value;
  fi_required : bool;
  fi_unique : bool;
  fi_externalId : bool;
  fi_calculated : bool;
  fi_picklistValues : option (list string);
  fi_referenceTo : list string;
  fi_relationshipName : option string;
  fi_helpText : option string
}.

Definition or_false (b : option bool) : bool :=
  match b with Some x => x | None => false end.

Definition info_of (field : field_meta) : field_info :=
  {| fi_name := fm_name field;
     fi_label := fm_label field;
     fi_type := fm_type field;
     fi_length := fm_length field;
     fi_precision := fm_precision field;
     fi_scale := fm_scale field;
     fi_required :=
       negb (fm_nillable field) && negb (fm_defaultedOnCreate field);
     fi_unique := or_false (fm_unique field);
     fi_externalId := or_false (fm_externalId field);
     fi_calculated := fm_calculated field;
     fi_picklistValues :=
       if nonempty (fm_picklistValues field)
       then Some (fm_picklistValues field) else None;
     fi_referenceTo := fm_referenceTo field;
     fi_relationshipName := fm_relationshipName field;
     fi_helpText := fm_inlineHelpText field |}.

(** The five lists the fields are sorted into (lines 379-383). *)
Record buckets : Type := {
  standard_fields : list field_info;
  custom_fields : list field_info;
  system_fields : list field_info;
  formula_fields : list field_info;
  lookup_fields : list field_info
}.

Definition system_names : list string :=
  ["Id"; "CreatedDate"; "CreatedById"; "LastModifiedDate";
   "LastModifiedById"; "SystemModstamp"].

(** One turn of the loop of lines 385-413. *)
Definition categorize (b : buckets) (field : field_meta) : buckets :=
  let field_info := info_of field in
  if fm_calculated field then
    {| standard_fields := standard_fields b;
       custom_fields := custom_fields b;
       system_fields := system_fields b;
       formula_fields := (formula_fields b ++ [field_info])%list;
       lookup_fields := lookup_fields b |}
  else if nonempty (fm_referenceTo field) then
    {| standard_fields := standard_fields b;
       custom_fields := custom_fields b;
       system_fields := system_fields b;
       formula_fields := formula_fields b;
       lookup_fields := (lookup_fields b ++ [field_info])%list |}
  else if fm_custom field then
    {| standard_fields := standard_fields b;
       custom_fields := (custom_fields b ++ [field_info])%list;
       system_fields := system_fields b;
       formula_fields := formula_fields b;
       lookup_fields := lookup_fields b |}
  else if mem (fm_name field) system_names then
    {| standard_fields := standard_fields b;
       custom_fields := custom_fields b;
       system_fields := (system_fields b ++ [field_info])%list;
       formula_fields := formula_fields b;
       lookup_fields := lookup_fields b |}
  else
    {| standard_fields := (standard_fields b ++ [field_info])%list;
       custom_fields := custom_fields b;
       system_fields := system_fields b;
       formula_fields := formula_fields b;
       lookup_fields := lookup_fields b |}.

Definition no_fields : buckets :=
  {| standard_fields := []; custom_fields := []; system_fields := [];
     formula_fields := []; lookup_fields := [] |}.

(** Truth value of an optional string. *)
Definition named (o : option string) : bool :=
  match o with Some (String _ _) => true | _ => false end.

(** Lines 419-425: field, relationship name, targets. *)
Definition parent_relationships_of (fields : list field_meta)
    : list (string * option string * list string) :=
  flat_map
    (fun field =>
       if nonempty (fm_referenceTo field) && named (fm_relationshipName field)
       then [(fm_name field, fm_relationshipName field, fm_referenceTo field)]
       else [])
    fields.

(** Lines 427-433: name, child type, joining field. *)
Definition child_relationships_of (rels : list child_rel)
    : list (option string * string * string) :=
  flat_map
    (fun rel =>
       if named (cr_relationshipName rel)
       then [(cr_relationshipName rel, cr_childSObject rel, cr_field rel)]
       else [])
    rels.

Record object_info : Type := {
  oi_name : string;
  oi_label : string;
  oi_labelPlural : string;
  oi_custom : bool;
  oi_queryable : bool;
  oi_searchable : bool;
  oi_createable : bool;
  oi_updateable : bool;
  oi_deletable : bool;
  oi_undeletable : bool;
  oi_triggerable : bool;
  oi_recordTypeInfos : Z
}.

Record counts : Type := {
  n_total_fields : Z;
  n_standard_fields : Z;
  n_custom_fields : Z;
  n_formula_fields : Z;
  n_lookup_fields : Z;
  n_child_relationships : Z
}.

Record detailed : Type := {
  d_object_info : object_info;
  d_fields : buckets;
  d_parent : list (string * option string * list string);
  d_child : list (option string * string * string);
  d_counts : counts
}.

(** Lines 378-469, on the metadata [describe_object] returned. *)
Definition describe_detailed_of (metadata : object_meta) : detailed :=
  let fields := fold_left categorize (om_fields metadata) no_fields in
  let parent_relationships := parent_relationships_of (om_fields metadata) in
  let child_relationships :=
    child_relationships_of (om_childRelationships metadata) in
  {| d_object_info :=
       {| oi_name := om_name metadata;
          oi_label := om_label metadata;
          oi_labelPlural := om_labelPlural metadata;
          oi_custom := om_custom metadata;
          oi_queryable := om_queryable metadata;
          oi_searchable := om_searchable metadata;
          oi_createable := om_createable metadata;
          oi_updateable := om_updateable metadata;
          oi_deletable := om_deletable metadata;
          oi_undeletable := or_false (om_undeletable metadata);
          oi_triggerable := or_false (om_triggerable metadata);
          oi_recordTypeInfos := len (om_recordTypeInfos metadata) |};
     d_fields := fields;
     d_parent := parent_relationships;
     d_child := child_relationships;
     d_counts :=
       {| n_total_fields := len (om_fields metadata);
          n_standard_fields := len (standard_fields fields);
          n_custom_fields := len (custom_fields fields);
          n_formula_fields := len (formula_fields fields);
          n_lookup_fields := len (lookup_fields fields);
          n_child_relationships := len child_relationships |} |}.

(** The categories of [describe_detailed], and the one a field falls
    in: the first of formula, lookup, custom and system that applies. *)
Inductive category : Type := Formula | Lookup | Custom | System | Standard.

Definition category_of (field : field_meta) : category :=
  if fm_calculated field then Formula
  else if nonempty (fm_referenceTo field) then Lookup
  else if fm_custom field then Custom
  else if mem (fm_name field) system_names then System
  else Standard.

Definition category_eqb (a b : category) : bool :=
  match a, b with
  | Formula, Formula | Lookup, Lookup | Custom, Custom
  | System, System | Standard, Standard => true
  | _, _ => false
  end.

Definition bucket (c : category) (b : buckets) : list field_info :=
  match c with
  | Formula => formula_fields b
  | Lookup => lookup_fields b
  | Custom => custom_fields b
  | System => system_fields b
  | Standard => standard_fields b
  end.

End Describe.

(** A store whose full-text search finds nothing, used with the sample
    data. *)
Module MoreSample.
Import Py Client Session Sample.
Open Scope string_scope.

Definition sf_no_rows : remote :=
  {| sf_search := fun _ _ => Ok (Some []);
     sf_query := sf_query sf_up;
     sf_describe := sf_describe sf_up;
     sf_get := sf_get sf_up;
     sf_update := sf_update sf_up |}.

End MoreSample.

(* ================================================================== *)
(** * Start-up: credentials (client.py 15-39, config.py 50-69) *)
(* ================================================================== *)

Module Startup.
Import Py Client.
Open Scope string_scope.

(** The process environment, once [load_dotenv] has run: [os.getenv]. *)
Definition env : Type := string -> option string.

(** Truth value of [os.getenv(key)]. *)
Definition is_given (e : env) (key : string) : bool :=
  match e key with Some (String _ _) => true | _ => false end.

(** [Config.validate] (config.py 50-69) *)
Definition required_keys : list string :=
  ["SF_USERNAME"; "SF_PASSWORD"; "SF_SECURITY_TOKEN"; "SF_DOMAIN"].

Definition validate (e : env) : bool * list string :=
  let missing := filter (fun key => negb (is_given e key)) required_keys in
  ((List.length missing =? 0)%nat, missing).

(** What [Salesforce(...)] is called with, and how the call ends. *)
Record credentials : Type := {
  username : string;
  password : string;
  security_token : string;
  domain : string
}.

Inductive login : Type :=
| LoggedIn
| SalesforceAuthenticationFailed (msg : string)
| Failed (e : exn).

Definition or_empty (o : option string) : string :=
  match o with Some s => s | None => "" end.

(** [SalesforceClient.__init__] (client.py 15-39): the client's state on
    success. *)
Definition __init__ (e : env) (Salesforce : credentials -> login)
    : result cstate :=
  if negb (is_given e "SF_USERNAME" && is_given e "SF_PASSWORD"
           && is_given e "SF_SECURITY_TOKEN")
  then
    Raise (ValueError
             ("Missing Salesforce credentials. Please create a .env file with:"
                ++ nl
                ++ "SF_USERNAME, SF_PASSWORD, SF_SECURITY_TOKEN, and SF_DOMAIN"))
  else
    match Salesforce
            {| username := or_empty (e "SF_USERNAME");
               password := or_empty (e "SF_PASSWORD");
               security_token := or_empty (e "SF_SECURITY_TOKEN");
               domain := match e "SF_DOMAIN" with
                         | Some d => d
                         | None => "login"
                         end |}
    with
    | LoggedIn => Ok {| object_cache := []; sent := [] |}
    | SalesforceAuthenticationFailed msg =>
        Raise (ValueError ("Salesforce authentication failed: " ++ msg))
    | Failed x => Raise x
    end.

(** How [__init__] ends once [Salesforce] has been called. *)
Definition connected (l : login) : result cstate :=
  match l with
  | LoggedIn => Ok {| object_cache := []; sent := [] |}
  | SalesforceAuthenticationFailed msg =>
      Raise (ValueError ("Salesforce authentication failed: " ++ msg))
  | Failed x => Raise x
  end.

End Startup.

(* ================================================================== *)
(** * Properties of the query constructor *)
(* ================================================================== *)

Module QueryFacts.
Import Py Client.
Open Scope string_scope.

Lemma prefix_char (c x : ascii) (s : string) :
  prefix (String c "") (String x s) = true <-> c = x.
Proof.
  simpl. destruct (ascii_dec c x) as [e|n].
  - split; [intros _; exact e | intros _; destruct s; reflexivity].
  - split; [discriminate | intros e; contradiction].
Qed.

Lemma startswith_char (c : ascii) (s : string) :
  startswith s (str1 c) = true <-> exists m, s = String c m.
Proof.
  unfold startswith, str1. destruct s as [|a s].
  - split; [discriminate | intros [m H]; discriminate].
  - rewrite prefix_char. split.
    + intros ->. eauto.
    + intros [m H]. congruence.
Qed.

Lemma endswith_char (c : ascii) (s : string) :
  endswith s (str1 c) = true <-> exists m, s = m ++ str1 c.
Proof.
  induction s as [|a s IH]; cbn [endswith].
  - split; [discriminate | intros [[|b m] H]; discriminate].
  - rewrite orb_true_iff, IH, String.eqb_eq. split.
    + intros [H | [m ->]].
      * exists EmptyString. exact H.
      * exists (String a m). reflexivity.
    + intros [[|b m] H]; simpl in H.
      * left. exact H.
      * right. exists m. congruence.
Qed.

Lemma index_char (c : ascii) (s : string) :
  (exists n, index 0 (String c "") s = Some n)
  <-> exists a b, s = a ++ String c b.
Proof.
  induction s as [|x s IH].
  - simpl. split; [intros [n H]; discriminate
                  | intros [[|y a] [b H]]; discriminate].
  - cbn [index].
    destruct (prefix (String c "") (String x s)) eqn:P.
    + apply prefix_char in P. subst x.
      split; [intros _ | eauto].
      exists EmptyString, s. reflexivity.
    + assert (N : c <> x).
      { intros e. apply prefix_char with (s := s) in e. congruence. }
      split.
      * intros [n H].
        destruct (index 0 (String c "") s) eqn:I; [|discriminate].
        destruct (proj1 IH (ex_intro _ _ eq_refl)) as [a [b ->]].
        exists (String x a), b. reflexivity.
      * intros [[|y a] [b H]]; simpl in H.
        -- congruence.
        -- injection H as -> ->.
           destruct (proj2 IH (ex_intro _ a (ex_intro _ b eq_refl)))
             as [n ->].
           eauto.
Qed.

Lemma contains_char (c : ascii) (s : string) :
  contains (str1 c) s = true <-> exists a b, s = a ++ String c b.
Proof.
  unfold contains, str1. rewrite <- index_char.
  destruct (index 0 (String c "") s) eqn:I.
  - split; eauto.
  - split; [discriminate | intros [n H]; discriminate].
Qed.

(** C7. The term placed in the full-text query: a query that starts and
    ends with a double quote is used verbatim; any other query that
    contains a space is wrapped in double quotes as a whole; every other
    query is used bare.  So [Axalta] stays bare, [Axalta Coating] is
    quoted, and an already quoted input passes through; the query text is
    [FIND {term} ...]. *)
Theorem search_term_quoting (query : string) :
  let quoted :=
    (exists m, query = String dquote m) /\ (exists m, query = m ++ str1 dquote) in
  let spaced := exists a b, query = a ++ String " "%char b in
  (quoted -> search_term query = query)
  /\ (~ quoted -> spaced ->
      search_term query = str1 dquote ++ query ++ str1 dquote)
  /\ (~ quoted -> ~ spaced -> search_term query = query)
  /\ search_term "Axalta" = "Axalta"
  /\ search_term "Axalta Coating"
     = str1 dquote ++ "Axalta Coating" ++ str1 dquote
  /\ search_term (str1 dquote ++ "Axalta Coating" ++ str1 dquote)
     = str1 dquote ++ "Axalta Coating" ++ str1 dquote
  /\ forall object_type limit fields,
       sosl_query object_type query limit fields
       = "FIND {" ++ search_term query ++ "} IN ALL FIELDS RETURNING "
           ++ object_type ++ "("
           ++ select_fields object_type "Name" fields
           ++ " ORDER BY Name LIMIT " ++ str_of_Z limit ++ ")".
Proof.
  cbv zeta. unfold search_term.
  pose proof (startswith_char dquote query) as S.
  pose proof (endswith_char dquote query) as E.
  pose proof (contains_char " "%char query) as C.
  change (str1 " "%char) with " " in C.
  repeat split; try reflexivity.
  - intros [Hs He]. apply S in Hs. apply E in He. now rewrite Hs, He.
  - intros Hq Hsp. apply C in Hsp. rewrite Hsp.
    destruct (startswith query (str1 dquote)) eqn:Hs;
      destruct (endswith query (str1 dquote)) eqn:He; try reflexivity.
    exfalso. apply Hq. split; [now apply S | now apply E].
  - intros Hq Hsp.
    destruct (contains " " query) eqn:Hc.
    + exfalso. apply Hsp. now apply C.
    + now destruct (startswith query (str1 dquote) && endswith query (str1 dquote)).
Qed.

End QueryFacts.

(* ================================================================== *)
(** * Properties of the search fallback and the relationship resolver *)
(* ================================================================== *)

Module ClientFacts.
Import Py Client Notions.
Open Scope string_scope.

Ltac run_monad :=
  unfold bind, ret, raise, get, gets, modify, try_except, lift_result.

(** What [search] does once the full-text request has raised: it asks for
    the name field and sends one exact-match query whose [SELECT] clause is
    the rendering of the [fields] argument itself. *)
Lemma search_after_failed_sosl (sf : remote) (object_type query : string)
    (limit : Z) (fields : option (list string)) (st st1 : cstate)
    (e : exn) (m : metadata) :
  let sosl := sosl_query object_type query limit fields in
  let soql := like_soql (str_of_fields fields) object_type (name_field_of m)
                        query limit in
  sf_search sf (sent st) sosl = Raise e ->
  is_Exception e = true ->
  describe_object sf object_type
    {| object_cache := object_cache st;
       sent := sent st ++ [ReqSearch sosl] |} = (Ok m, st1) ->
  search sf object_type query limit fields st
  = (match sf_query sf (sent st1) soql with
     | Ok r => Ok (qr_records r)
     | Raise e' => Raise e'
     end,
     {| object_cache := object_cache st1;
        sent := sent st1 ++ [ReqQuery soql] |}).
Proof.
  intros sosl soql Hs He Hd.
  unfold search, _get_name_field, remote_call. run_monad.
  fold sosl. rewrite Hs, He, Hd. fold soql.
  destruct (sf_query sf (sent st1) soql); reflexivity.
Qed.

(** C3, at a failing input.  The full-text request for contacts named
    [Smith] raises, no custom fields were asked for.  The failure is not
    propagated and one fallback query is sent, ordered by the name field
    and limited to 200 rows; but its [SELECT] clause is the text [None],
    where the sibling path of lines 122-135 selects [Id, Name]. *)
Theorem search_fallback_selects_fields_repr :
  let outcome :=
    search Sample.sf_no_search "Contact" "Smith" 200 None Sample.fresh_client in
  fst outcome = Ok [Sample.ann; Sample.bob]
  /\ sent (snd outcome)
     = [ReqSearch "FIND {Smith} IN ALL FIELDS RETURNING Contact(Id, Name ORDER BY Name LIMIT 200)";
        ReqDescribe "Contact";
        ReqQuery (like_soql "None" "Contact" "Name" "Smith" 200)]
  /\ select_fields "Contact" "Name" None = "Id, Name"
  /\ like_soql "None" "Contact" "Name" "Smith" 200
     <> like_soql (select_fields "Contact" "Name" None) "Contact" "Name"
                  "Smith" 200.
Proof.
  cbv zeta. repeat split; try reflexivity.
  vm_compute. discriminate.
Qed.




(** The heuristics return no field when the child type cannot be
    described. *)
Lemma no_field_without_child_metadata (sf : remote)
    (parent_object child_object parent_id : string) (st : cstate) :
  cache_lookup child_object (object_cache st) = None ->
  (forall h, exists e, sf_describe sf h child_object = Raise e
                       /\ is_Exception e = true) ->
  exists st', _get_relationship_field sf parent_object child_object parent_id st
              = (Ok None, st').
Proof.
  intros Hc Hr.
  unfold _get_relationship_field, describe_object, remote_call. run_monad.
  destruct (table_get parent_object common_patterns) as [pattern|].
  - rewrite Hc. destruct (Hr (sent st)) as [e [-> _]]. cbn [is_any].
    cbn [object_cache sent]. rewrite Hc. cbn [object_cache sent].
    destruct (Hr (sent st ++ [ReqDescribe child_object])%list)
      as [e' [-> ->]].
    eauto.
  - rewrite Hc. destruct (Hr (sent st)) as [e [-> ->]]. eauto.
Qed.

End ClientFacts.

(* ================================================================== *)
(** * Properties of the session: selection, sorting on no records *)
(* ================================================================== *)

Module SelectFacts.
Import Py Client Session Notions.
Open Scope string_scope.

Ltac run_monad :=
  unfold bind, ret, raise, get, gets, modify, try_except, lift_result, emit,
    on_session.

Lemma out_of_range (n : Z) (l : list record) :
  (n < 1 \/ len l < n)%Z -> in_range (n - 1) l = false.
Proof.
  unfold in_range. intros H.
  destruct (0 <=? n - 1)%Z eqn:A; [|reflexivity].
  destruct (n - 1 <? len l)%Z eqn:B; [|reflexivity].
  apply Z.leb_le in A. apply Z.ltb_lt in B. lia.
Qed.

(** C8. A selection outside [1, len(list)] reports an error and changes
    nothing: the session (with its navigation stack) and the client are
    the ones before the command, so nothing was pushed and no record was
    fetched.  This holds for [select] on search results, for [select] on a
    related list, and for a bare number typed against whichever list is
    active. *)
Theorem select_out_of_range (rt : runtime) (sf : remote) (args : string)
    (n : Z) (w : world) :
  int_of_str args = Some n ->
  ((n < 1 \/ len (current_records (session w)) < n)%Z ->
   _handle_select rt sf args w
   = (Ok tt, shown (invalid_selection (current_records (session w))) w))
  /\ ((n < 1 \/ len (related_records (session w)) < n)%Z ->
      _handle_select_related sf args w
      = (Ok tt, shown (invalid_selection (related_records (session w))) w))
  /\ (isdigit args = true -> strip args = args ->
      active_list (session w) <> [] ->
      (n < 1 \/ len (active_list (session w)) < n)%Z ->
      _execute_command rt sf args w
      = (Ok tt, shown (invalid_selection (active_list (session w))) w)).
Proof.
  intros Hn.
  assert (S1 : (n < 1 \/ len (current_records (session w)) < n)%Z ->
               _handle_select rt sf args w
               = (Ok tt, shown (invalid_selection (current_records (session w))) w)).
  { intros Hr. unfold _handle_select, parse_int. rewrite Hn. run_monad.
    rewrite (out_of_range _ Hr). reflexivity. }
  assert (S2 : (n < 1 \/ len (related_records (session w)) < n)%Z ->
               _handle_select_related sf args w
               = (Ok tt, shown (invalid_selection (related_records (session w))) w)).
  { intros Hr. unfold _handle_select_related, parse_int. rewrite Hn.
    run_monad. rewrite (out_of_range _ Hr). reflexivity. }
  repeat split; [exact S1 | exact S2 |].
  intros Hd Hs Ha Hr. unfold _execute_command. run_monad.
  rewrite Hs, Hd. unfold active_list in *.
  destruct (nonempty (related_records (session w))) eqn:R.
  - now apply S2.
  - destruct (current_records (session w)) eqn:C; [contradiction|].
    cbn [nonempty]. rewrite <- C in *. now apply S1.
Qed.

(** C10. Sorting no records returns the empty list, whatever the field
    and the direction, and displays nothing: the check that the field
    exists in the first record is not reached. *)
Theorem sort_empty (field_name : string) (descending : bool) (w : world) :
  _sort_records [] field_name descending w = (Ok (Some []), w).
Proof. reflexivity. Qed.

End SelectFacts.

(* ================================================================== *)
(** * Properties of the field-update path *)
(* ================================================================== *)

Module UpdateFacts.
Import Py Client Session Notions.
Open Scope string_scope.

Ltac run_monad :=
  unfold set_current_object, set_current_records, set_current_record,
    set_related_records, set_related_type, set_navigation_stack,
    set_navigation_path, emit, on_session, prompt, call, zoom, bind, ret,
    raise, get, gets, modify, try_except, lift_result;
  cbn [fst snd session client console stdin].






End UpdateFacts.

(* ================================================================== *)
(** * Properties of the sort utility *)
(* ================================================================== *)

Unset Implicit Arguments.

Module SortFacts.
Import Py Client Session Notions.
Open Scope string_scope.

(** ** A stable insertion sort over a decidable strict weak order *)
Section Stable.
Variable A : Type.
Variable ltb : A -> A -> bool.
Hypothesis irrefl : forall a, ltb a a = false.
Hypothesis trans :
  forall a b c, ltb a b = true -> ltb b c = true -> ltb a c = true.
Hypothesis negtrans :
  forall a b c, ltb a b = false -> ltb b c = false -> ltb a c = false.

Let lt (a b : A) : result bool := Ok (ltb a b).











End Stable.



Section Agreement.
Variable A : Type.
Variable P : A -> Prop.
Variables lt1 lt2 : A -> A -> result bool.
Hypothesis agree : forall a b, P a -> P b -> lt1 a b = lt2 a b.


End Agreement.

(** ** The order on the keys of textual records *)
Import OrderedTypeEx.















Section Textual.
Variable f : string.

Let by_key (a b : record) : result bool :=
  key_lt (sort_key f a) (sort_key f b).







End Textual.



(** Outside text the sort can fail: a zero's key is the empty string,
    which does not compare with the key of another number. *)
Lemma sort_fails_on_zero :
  let w := Sample.world_of initial [] in
  _sort_records [[("n", VInt 0)]; [("n", VInt 5)]] "n" false w
  = (Ok None,
     shown_error "Failed to sort records: " w).
Proof. reflexivity. Qed.


End SortFacts.

(* ================================================================== *)
(** * Properties of navigation: failures *)
(* ================================================================== *)

Module FailureFacts.
Import Py Client Session Notions.
Open Scope string_scope.

(** Run a handler on a world given by its components. *)
Ltac run_monad :=
  cbv beta iota zeta delta
    [push_frame relationships_hint render cd_failed _handle_show
     set_current_object set_current_records set_current_record
     set_related_records set_related_type set_navigation_stack
     set_navigation_path emit on_session prompt call zoom bind ret raise
     get gets modify try_except lift_result
     fst snd session client console stdin current_object current_records
     current_record related_records related_type navigation_stack
     navigation_path].


(** Close a goal [atomic]-style once the run has been computed. *)
Ltac reduce :=
  cbv beta iota zeta delta
    [fst snd session client console stdin current_object current_records
     current_record related_records related_type navigation_stack
     navigation_path is_Exception is_any is_ValueError negb has_record].


(** Case analysis on the outcome of a client call, and on whether a raised
    exception is one that [except Exception] catches. *)
Ltac on_call m :=
  let e := fresh "e" in
  destruct m as [[?|e] ?]; reduce; [|destruct (is_Exception e) eqn:?; reduce].

(** Compute a handler's run by cases on the tests and calls it makes. *)
Ltac cases :=
  repeat (reduce;
          match goal with
          | |- context [get_related_records ?sf ?a ?b ?c ?d ?st] =>
              on_call (get_related_records sf a b c d st)
          | |- context [get_record ?sf ?a ?b ?st] =>
              on_call (get_record sf a b st)
          | |- context [query ?sf ?a ?st] => on_call (query sf a st)
          | |- context [get_child_relationships ?sf ?a ?st] =>
              on_call (get_child_relationships sf a st)
          | |- context [update_record ?sf ?a ?b ?c ?st] =>
              on_call (update_record sf a b c st)
          | |- context [match ?x with _ => _ end] => is_var x; destruct x
          | |- context [has_record ?r] =>
              destruct (has_record r) eqn:?
          | |- context [nonempty ?l] =>
              destruct (nonempty l) eqn:?
          | |- context [truthy ?v] =>
              destruct (truthy v) eqn:?
          | |- context [opt_eqb ?a ?b] =>
              destruct (opt_eqb a b) eqn:?
          | |- context [endswith ?a ?b] =>
              destruct (endswith a b) eqn:?
          | |- context [in_range ?a ?b] =>
              destruct (in_range a b) eqn:?
          | |- context [if (?a =? ?b)%string then _ else _] =>
              destruct (a =? b)%string eqn:?
          | |- context [if (?a =? ?b)%Z then _ else _] =>
              destruct (a =? b)%Z eqn:?
          | |- context [if (?a <? ?b)%Z then _ else _] =>
              destruct (a <? b)%Z eqn:?
          | |- context [match dict_get ?k ?d with _ => _ end] =>
              destruct (dict_get k d) eqn:?
          | |- context [match dict_get_or ?k ?v ?d with _ => _ end] =>
              destruct (dict_get_or k v d) eqn:?
          | |- context [match int_of_str ?a with _ => _ end] =>
              destruct (int_of_str a) eqn:?
          | |- context [match nth_error ?l ?n with _ => _ end] =>
              destruct (nth_error l n) eqn:?
          | |- context [match table_get ?k ?t with _ => _ end] =>
              destruct (table_get k t) eqn:?
          | |- context [match find ?f ?l with _ => _ end] =>
              destruct (find f l) as [[? ?]|] eqn:?
          | |- context [match qr_records ?r with _ => _ end] =>
              destruct (qr_records r) eqn:?
          | |- context [match qr_totalSize ?r with _ => _ end] =>
              destruct (qr_totalSize r) eqn:?
          | |- context [match split_ws1 ?a with _ => _ end] =>
              destruct (split_ws1 a) as [|? [|? [|? ?]]] eqn:?
          | |- context [match resolve_field ?a ?b with _ => _ end] =>
              destruct (resolve_field a b) as [[|? ?]|] eqn:?
          | |- context [mem ?a ?b] => destruct (mem a b) eqn:?
          | |- context [match actual_object_of ?t with _ => _ end] =>
              destruct (actual_object_of t) eqn:?
          | |- context [if is_ValueError ?e then _ else _] =>
              destruct (is_ValueError e) eqn:?
          | |- context [if is_Exception ?e then _ else _] =>
              destruct (is_Exception e) eqn:?
          end).










(** Two more commands change the session although their remote call
    failed: [get] keeps the object type it assigned before the call, and
    [select] keeps the frame it pushed before the call and lets the
    exception escape. *)
Lemma failed_get_keeps_new_object_type :
  let w := Sample.world_of Sample.record_shown [] in
  let out := _execute_command Sample.rt0 Sample.sf_down "get Contact 003A" w in
  fst out = Ok tt
  /\ current_object (session (snd out)) = Some "Contact"
  /\ current_record (session (snd out)) = Some Sample.acme
  /\ current_object (session w) = Some "Account".
Proof. cbv zeta. repeat split; reflexivity. Qed.

Lemma failed_select_keeps_pushed_frame :
  let w := Sample.world_of Sample.results_shown [] in
  let out := _execute_command Sample.rt0 Sample.sf_down "select 1" w in
  fst out = Raise (RemoteError "down")
  /\ navigation_stack (session (snd out))
     = [FSearch (Some "Account") [Sample.acme; Sample.holding] []]
  /\ navigation_stack (session w) = [].
Proof. cbv zeta. repeat split; reflexivity. Qed.


End FailureFacts.

(* ================================================================== *)
(** * Properties of navigation: going back *)
(* ================================================================== *)

Module BackFacts.
Import Py Client Session Notions FailureFacts.
Open Scope string_scope.

Lemma no_cycle (A : Type) (x : A) (l : list A) : l <> x :: l.
Proof.
  intros H. apply (f_equal (@List.length A)) in H. cbn [List.length] in H.
  lia.
Qed.

Ltac settle_back :=
  reduce;
  first
    [ left; reflexivity
    | right; unfold restored, _go_back; run_monad; reduce;
      cbn [frame_path plain_before carries_breadcrumb];
      repeat split; try reflexivity; try congruence;
      intros; repeat match goal with H : _ /\ _ |- _ => destruct H end;
      cbn [current_object current_records current_record related_records
           related_type navigation_stack navigation_path] in *;
      subst; try reflexivity; try congruence ].

Ltac crunch_back := cases; try settle_back.

Lemma select_restorable (rt : runtime) (sf : remote) (args : string) :
  pushes_restorable BySelect (_handle_select rt sf args).
Proof.
  intros [[o rs r rel rt' st p] c con inp].
  unfold _handle_select, parse_int, index_key, as_object, as_id.
  run_monad. crunch_back.
Qed.

Lemma cd_restorable (rt : runtime) (sf : remote) (args : string) :
  pushes_restorable ByCd (_handle_cd rt sf args).
Proof.
  intros [[o rs r rel rt' st p] c con inp].
  unfold _handle_cd, fetch_related, index_key, as_object.
  run_monad. crunch_back.
Qed.

Lemma related_restorable (rt : runtime) (sf : remote) (args : string) :
  pushes_restorable ByRelated (_handle_related rt sf args).
Proof.
  intros [[o rs r rel rt' st p] c con inp].
  unfold _handle_related, fetch_related, index_key, as_object.
  run_monad. crunch_back.
Qed.

Lemma select_related_restorable (sf : remote) (args : string) :
  pushes_restorable BySelectRelated (_handle_select_related sf args).
Proof.
  intros [[o rs r rel rt' st p] c con inp].
  unfold _handle_select_related, parse_int, index_key, as_object, as_id.
  run_monad. crunch_back.
Qed.

Lemma account_jump_restorable (rt : runtime) (sf : remote) (c : forward)
    (link : string) (columns : list string) (m1 m2 m3 m4 m5 args : string) :
  c = ByParent \/ c = ByUltimateParent ->
  pushes_restorable c (account_jump rt sf link columns m1 m2 m3 m4 m5 args).
Proof.
  intros Hc [[o rs r rel rt' st p] cl con inp].
  unfold account_jump, get_or, as_id. run_monad.
  generalize (field_list args). intros fl.
  destruct Hc; subst c; crunch_back.
Qed.

Lemma children_restorable (rt : runtime) (sf : remote) (args : string) :
  pushes_restorable ByChildren (_handle_children rt sf args).
Proof.
  intros [[o rs r rel rt' st p] c con inp].
  unfold _handle_children, get_or. run_monad. crunch_back.
Qed.

(** C4, the claim as stated, fails for a frame pushed by [related] from a
    record reached through [cd]: after [back] the breadcrumb and the
    related list of the state the command was issued in are gone. *)
Lemma back_after_related_loses_breadcrumb :
  let w := Sample.world_of Sample.related_shown [] in
  let w1 := snd (_execute_command Sample.rt0 Sample.sf_up "related Contacts" w) in
  let w2 := snd (_execute_command Sample.rt0 Sample.sf_up "back" w1) in
  session w
  = session (Sample.run_all Sample.sf_up
               ["search Account Acme"; "1"; "cd Contacts"]
               (Sample.world_of initial []))
  /\ navigation_stack (session w1)
     = FRecord (Some "Account") (Some Sample.acme) None None
         :: navigation_stack (session w)
  /\ navigation_path (session w) = ["Account:Acme"; "Contacts"]
  /\ navigation_path (session w2) = []
  /\ related_records (session w) = [Sample.ann; Sample.bob]
  /\ related_records (session w2) = []
  /\ session w2 <> session w.
Proof.
  cbv zeta. repeat split; try reflexivity. discriminate.
Qed.

(** C4 as amended.  After a command that pushed a frame, [back] pops that
    frame and restores its snapshot verbatim: the navigation stack and the
    object type are those of the state the command was issued in; so is
    the current record, unless the frame is a search frame, which restores
    the result list and no record; the breadcrumb is restored when the
    frame carries one ([select], [cd], [select] on a related list) and
    emptied otherwise ([related], [parent], [ultimateparent], [children]).
    The whole session is restored exactly when what the frame does not
    snapshot was empty: always for [select] on a related list; for
    [select] on search results issued with no current record and no
    related list; for [cd] issued with no result list and no related
    list; for the others issued, besides, with an empty breadcrumb. *)
Theorem back_after_forward (rt : runtime) (sf : remote) (c : forward)
    (args : string) (w : world) (f : frame) :
  let w1 := snd (run_forward rt sf c args w) in
  navigation_stack (session w1) = f :: navigation_stack (session w) ->
  restored c (session w) (session (snd (_go_back w1))).
Proof.
  intros w1 Hpush.
  assert (R : navigation_stack (session w1) = navigation_stack (session w)
              \/ restored c (session w) (session (snd (_go_back w1)))).
  { subst w1. destruct c; cbn [run_forward].
    - apply select_restorable.
    - apply cd_restorable.
    - apply related_restorable.
    - apply select_related_restorable.
    - apply account_jump_restorable. now left.
    - apply account_jump_restorable. now right.
    - apply children_restorable. }
  destruct R as [Same|R]; [|exact R].
  rewrite Same in Hpush. now apply no_cycle in Hpush.
Qed.

End BackFacts.

(* ================================================================== *)
(** * The theorems at concrete inputs *)
(* ================================================================== *)

Module Instances.
Import Py Client Session Notions Sample.
Open Scope string_scope.



(** [select 1] on shown results, then [back]. *)
Lemma back_after_forward_at_select :
  let w := world_of results_shown [] in
  let w1 := snd (run_forward rt0 sf_up BySelect "1" w) in
  navigation_stack (session w1)
  = FSearch (Some "Account") [acme; holding] []
      :: navigation_stack (session w)
  /\ restored BySelect (session w) (session (snd (_go_back w1))).
Proof.
  cbv zeta. split; [reflexivity|].
  apply (BackFacts.back_after_forward rt0 sf_up BySelect "1"
           (world_of results_shown [])
           (FSearch (Some "Account") [acme; holding] [])).
  reflexivity.
Defined.


(** [select 5] on two results. *)
Lemma select_out_of_range_at_five :
  let w := world_of results_shown [] in
  int_of_str "5" = Some 5%Z
  /\ _handle_select rt0 sf_up "5" w
     = (Ok tt, shown (invalid_selection [acme; holding]) w)
  /\ _execute_command rt0 sf_up "5" w
     = (Ok tt, shown (invalid_selection [acme; holding]) w).
Proof.
  cbv zeta.
  destruct (@SelectFacts.select_out_of_range rt0 sf_up "5" 5
              (world_of results_shown []) eq_refl) as [H1 [_ H3]].
  split; [reflexivity|]. split.
  - apply H1. right. vm_compute. reflexivity.
  - apply H3; try reflexivity.
    + discriminate.
    + right. vm_compute. reflexivity.
Defined.


End Instances.

(* ================================================================== *)
(** * Properties of the metadata cache and of what is derived from it *)
(* ================================================================== *)

Module CacheFacts.
Import Py Client ClientMore MoreNotions.
Open Scope string_scope.

Ltac run_monad :=
  cbv beta iota zeta delta
    [bind ret raise get gets modify try_except lift_result remote_call
     cache_store fst snd object_cache sent].

Lemma cache_lookup_app (o : string) (c c' : list (string * metadata))
    (m : metadata) :
  cache_lookup o c = Some m -> cache_lookup o (c ++ c')%list = Some m.
Proof.
  unfold cache_lookup. induction c as [|[k v] c IH]; cbn [find app fst].
  - discriminate.
  - destruct (k =? o)%string; [trivial | exact IH].
Qed.

Lemma cache_lookup_new (o : string) (c : list (string * metadata))
    (m : metadata) :
  cache_lookup o c = None -> cache_lookup o (c ++ [(o, m)])%list = Some m.
Proof.
  unfold cache_lookup. induction c as [|[k v] c IH]; cbn [find app fst].
  - intros _. now rewrite String.eqb_refl.
  - destruct (k =? o)%string; [discriminate | exact IH].
Qed.

(** The three ways [describe_object] ends. *)
Lemma describe_object_cases (sf : remote) (o : string) (st : cstate) :
  (exists m, cache_lookup o (object_cache st) = Some m
             /\ describe_object sf o st = (Ok m, st))
  \/ (exists m, cache_lookup o (object_cache st) = None
                /\ sf_describe sf (sent st) o = Ok m
                /\ describe_object sf o st
                   = (Ok m, {| object_cache :=
                                 (object_cache st ++ [(o, m)])%list;
                               sent := (sent st ++ [ReqDescribe o])%list |}))
  \/ (exists e, cache_lookup o (object_cache st) = None
                /\ sf_describe sf (sent st) o = Raise e
                /\ describe_object sf o st
                   = (Raise e, after_request (ReqDescribe o) st)).
Proof.
  destruct st as [c s]. unfold describe_object, after_request. run_monad.
  destruct (cache_lookup o c) as [m|] eqn:C.
  - left. exists m. split; reflexivity.
  - destruct (sf_describe sf s o) as [m|e] eqn:D.
    + right. left. exists m. repeat split; reflexivity.
    + right. right. exists e. repeat split; reflexivity.
Qed.

(** X1. [describe_object] memoises: metadata that was returned is in
    the cache, and a later call for the same type returns it again
    without contacting the remote store, whatever the store would
    answer; entries for other types stay; a failed request is not
    cached and is the only request sent. *)
Theorem describe_object_memoises (sf : remote) (o : string) (st : cstate) :
  match describe_object sf o st with
  | (Ok m, st1) =>
      (forall sf', describe_object sf' o st1 = (Ok m, st1))
      /\ (sent st1 = sent st \/ sent st1 = (sent st ++ [ReqDescribe o])%list)
      /\ (forall o' m', cache_lookup o' (object_cache st) = Some m' ->
                        cache_lookup o' (object_cache st1) = Some m')
  | (Raise e, st1) =>
      cache_lookup o (object_cache st) = None
      /\ st1 = after_request (ReqDescribe o) st
  end.
Proof.
  destruct (describe_object_cases sf o st)
    as [[m [C ->]] | [[m [C [D ->]]] | [e [C [D ->]]]]].
  - split; [|split].
    + intros sf'. destruct st as [c s]. unfold describe_object. run_monad.
      cbn [object_cache] in C. now rewrite C.
    + now left.
    + trivial.
  - split; [|split].
    + intros sf'. destruct st as [c s]. unfold describe_object. run_monad.
      cbn [object_cache] in C. now rewrite (cache_lookup_new _ _ m C).
    + now right.
    + intros o' m'. cbn [object_cache]. apply cache_lookup_app.
  - split; [exact C | reflexivity].
Qed.

End CacheFacts.

Module MetadataFacts.
Import Py Client ClientMore MoreNotions CacheFacts.
Open Scope string_scope.

Lemma mem_iff (x : string) (l : list string) : mem x l = true <-> In x l.
Proof.
  unfold mem. rewrite existsb_exists. split.
  - intros [y [Hin Heq]]. apply String.eqb_eq in Heq. now subst.
  - intros Hin. exists x. split; [exact Hin | apply String.eqb_refl].
Qed.


Lemma len_app_one (A : Type) (l : list A) (x : A) :
  len (l ++ [x]) = (len l + 1)%Z.
Proof. unfold len. rewrite length_app. cbn [List.length]. lia. Qed.

Lemma add_preferred_picked (m : metadata) (max_fields : Z)
    (prefs fields : list string) :
  NoDup prefs ->
  (forall p, In p prefs -> ~ In p fields) ->
  picked m max_fields fields ->
  picked m max_fields
    (fold_left
       (fun acc pref =>
          if mem pref (field_names m) && (len acc <? max_fields)%Z
          then (acc ++ [pref])%list else acc)
       prefs fields).
Proof.
  revert fields. induction prefs as [|p prefs IH]; intros fields Hnd Hdis Hp.
  - exact Hp.
  - cbn [fold_left]. inversion Hnd as [|? ? Hnp Hnd']; subst.
    apply IH; [exact Hnd' | |].
    + intros q Hq.
      destruct (mem p (field_names m) && (len fields <? max_fields)%Z).
      * rewrite in_app_iff. intros [H|[H|[]]].
        -- apply (Hdis q); [now right | exact H].
        -- subst. contradiction.
      * apply Hdis. now right.
    + destruct (mem p (field_names m)) eqn:Hm; cbn [andb]; [|exact Hp].
      destruct (len fields <? max_fields)%Z eqn:Hl; [|exact Hp].
      destruct Hp as [[rest ->] [Hn [Hlen Hin]]].
      apply Z.ltb_lt in Hl. apply mem_iff in Hm.
      split; [|split; [|split]].
      * now exists (rest ++ [p])%list.
      * apply NoDup_app; [exact Hn | repeat constructor; intros [] | ].
        intros x Hx [<-|[]]. apply (Hdis p); [now left | exact Hx].
      * rewrite len_app_one. lia.
      * intros f. rewrite in_app_iff. intros [H|[<-|[]]]; [auto | now right].
Qed.

Lemma fill_fields_picked (m : metadata) (max_fields : Z)
    (fs : list field_desc) (fields : list string) :
  (forall f, In f fs -> In (fd_name f) (field_names m)) ->
  (len fields < max_fields)%Z ->
  picked m max_fields fields ->
  picked m max_fields (fill_fields max_fields fs fields).
Proof.
  revert fields. induction fs as [|f fs IH]; intros fields Hfs Hl Hp.
  - exact Hp.
  - cbn [fill_fields].
    assert (Hfs' : forall g, In g fs -> In (fd_name g) (field_names m))
      by (intros g Hg; apply Hfs; now right).
    destruct (negb (mem (fd_name f) fields)) eqn:Hn; cbn [andb];
      [|now apply IH].
    destruct (mem (fd_type f) ["string"; "picklist"; "boolean"]);
      [|now apply IH].
    apply negb_true_iff in Hn.
    assert (Hnew : picked m max_fields (fields ++ [fd_name f])).
    { destruct Hp as [[rest ->] [Hnd [Hlen Hin]]].
      split; [|split; [|split]].
      - now exists (rest ++ [fd_name f])%list.
      - apply NoDup_app; [exact Hnd | repeat constructor; intros [] |].
        intros x Hx [<-|[]]. apply mem_iff in Hx. congruence.
      - rewrite len_app_one. lia.
      - intros g. rewrite in_app_iff. intros [H|[<-|[]]]; [auto|].
        right. apply Hfs. now left. }
    destruct (max_fields <=? len (fields ++ [fd_name f]))%Z eqn:Hm;
      [exact Hnew|].
    apply IH; [exact Hfs' | | exact Hnew]. apply Z.leb_gt in Hm. exact Hm.
Qed.

(** X3. The columns chosen for a related-records query: [Id] comes
    first, no column is listed twice, there are at most [max_fields]
    of them (one when [max_fields] is below one), and every column but
    [Id] is a field the object's metadata declares. *)
Theorem query_fields_shape (m : metadata) (max_fields : Z) :
  let fields := query_fields_of m max_fields in
  (exists rest, fields = "Id" :: rest)
  /\ NoDup fields
  /\ (len fields <= Z.max 1 max_fields)%Z
  /\ forall f, In f fields -> f = "Id" \/ In f (field_names m).
Proof.
  cbv zeta. fold (picked m max_fields (query_fields_of m max_fields)).
  assert (H0 : picked m max_fields ["Id"]).
  { split; [|split; [|split]].
    - now exists [].
    - repeat constructor. intros [].
    - unfold len. cbn [List.length]. lia.
    - intros f [<-|[]]. now left. }
  assert (H1 : picked m max_fields (add_preferred m max_fields ["Id"])).
  { unfold add_preferred. apply add_preferred_picked; [| |exact H0].
    - unfold preferred_fields.
      repeat (constructor; [cbn [In]; intuition discriminate|]).
      constructor.
    - unfold preferred_fields. intros p Hp [H|[]]. subst p.
      cbn [In] in Hp. intuition discriminate. }
  unfold query_fields_of.
  destruct (len (add_preferred m max_fields ["Id"]) <? max_fields)%Z eqn:L;
    [|exact H1].
  apply fill_fields_picked; [| now apply Z.ltb_lt | exact H1].
  intros f Hf. unfold field_names. now apply in_map.
Qed.

(** X23. The common fields of an object are at most twenty of its
    fields, in the order of the metadata and starting from its first
    listed field that qualifies; each contains one of the ten patterns
    as a substring (which [Id] and [Name] do, so that the test for these
    two names adds nothing). *)
Theorem common_fields_shape (m : metadata) :
  let fields := common_fields_of m in
  (List.length fields <= 20)%nat
  /\ (exists rest,
        filter (fun n => existsb (fun pattern => contains pattern n)
                                 common_field_patterns)
               (field_names m)
        = (fields ++ rest)%list)
  /\ forall f, In f fields ->
       In f (field_names m)
       /\ exists pattern, In pattern common_field_patterns
                          /\ contains pattern f = true.
Proof.
  cbv zeta. unfold common_fields_of.
  assert (E : forall n, is_common n
                        = existsb (fun pattern => contains pattern n)
                                  common_field_patterns).
  { intros n. unfold is_common. destruct (mem n ["Id"; "Name"]) eqn:H;
      [|reflexivity].
    apply mem_iff in H. destruct H as [<-|[<-|[]]]; reflexivity. }
  rewrite (filter_ext _ _ E).
  split; [apply firstn_le_length|]. split.
  - eexists. symmetry. apply firstn_skipn.
  - intros f Hf.
    assert (Hin : In f (filter (fun n => existsb (fun pattern =>
                                  contains pattern n) common_field_patterns)
                               (field_names m))).
    { rewrite <- (firstn_skipn 20). apply in_or_app. now left. }
    apply filter_In in Hin. destruct Hin as [H1 H2]. split; [exact H1|].
    apply existsb_exists in H2. exact H2.
Qed.

End MetadataFacts.

Module ResolverFacts.
Import Py Client ClientMore MoreNotions CacheFacts MetadataFacts.
Open Scope string_scope.

Lemma describe_object_cached (sf : remote) (o : string) (st st1 : cstate)
    (m : metadata) :
  describe_object sf o st = (Ok m, st1) ->
  cache_lookup o (object_cache st1) = Some m.
Proof.
  intros H.
  destruct (describe_object_cases sf o st)
    as [[m' [C E]] | [[m' [C [D E]]] | [e [C [D E]]]]];
    rewrite E in H; inversion H; subst; cbn [object_cache].
  - exact C.
  - now apply cache_lookup_new.
Qed.

(** X4. The heuristic search for the joining field never fails with an
    error that [except Exception] catches: when the child type cannot be
    described it answers [None].  A field it does answer is a field of
    the child type, whose metadata is then in the cache, and it is the
    parent's conventional field, or a reference field that points to the
    parent, or the parent's name followed by [Id]. *)
Theorem relationship_field_is_a_child_field (sf : remote)
    (parent_object child_object parent_id : string) (st : cstate) :
  match _get_relationship_field sf parent_object child_object parent_id st
  with
  | (Ok (Some f), st') =>
      exists m,
        cache_lookup child_object (object_cache st') = Some m
        /\ In f (field_names m)
        /\ (table_get parent_object common_patterns = Some f
            \/ reference_to_parent parent_object m = Some f
            \/ f = parent_object ++ "Id")
  | (Ok None, _) => True
  | (Raise e, _) => is_Exception e = false
  end.
Proof.
  unfold _get_relationship_field.
  assert (second : forall st0,
    match try_except is_Exception
            (bind (describe_object sf child_object)
               (fun m =>
                  match reference_to_parent parent_object m with
                  | Some f => ret (Some f)
                  | None =>
                      ret (if mem (parent_object ++ "Id") (field_names m)
                           then Some (parent_object ++ "Id") else None)
                  end))
            (fun _ => ret None) st0
    with
    | (Ok (Some f), st') =>
        exists m,
          cache_lookup child_object (object_cache st') = Some m
          /\ In f (field_names m)
          /\ (table_get parent_object common_patterns = Some f
              \/ reference_to_parent parent_object m = Some f
              \/ f = parent_object ++ "Id")
    | (Ok None, _) => True
    | (Raise e, _) => is_Exception e = false
    end).
  { intros st0. unfold try_except, bind, ret.
    destruct (describe_object sf child_object st0) as [[m|e] st1] eqn:D.
    - apply describe_object_cached in D.
      destruct (reference_to_parent parent_object m) as [f|] eqn:R.
      + exists m. split; [exact D|]. split; [|now right; left].
        unfold reference_to_parent in R.
        destruct (find _ (md_fields m)) as [g|] eqn:F; [|discriminate].
        inversion R; subst. apply find_some in F.
        unfold field_names. apply in_map. apply F.
      + destruct (mem (parent_object ++ "Id") (field_names m)) eqn:Hm;
          [|exact I].
        exists m. split; [exact D|]. split; [|now right; right].
        now apply mem_iff.
    - destruct (is_Exception e) eqn:E; [exact I | exact E]. }
  unfold bind at 1.
  destruct (table_get parent_object common_patterns) as [pattern|] eqn:T.
  - unfold try_except at 1, bind at 1, ret at 1 2 3, is_any.
    destruct (describe_object sf child_object st) as [[m|e] st1] eqn:D.
    + destruct (mem pattern (field_names m)) eqn:Hm.
      * exists m. split; [now apply describe_object_cached in D|].
        split; [now apply mem_iff | now left].
      * apply second.
    + apply second.
  - unfold ret at 1. apply second.
Qed.

End ResolverFacts.

(* ================================================================== *)
(** * Properties of the client's requests *)
(* ================================================================== *)

Module RequestFacts.
Import Py Client ClientMore MoreNotions CacheFacts MetadataFacts
       ResolverFacts.
Open Scope string_scope.

Ltac run_client :=
  cbv beta iota zeta delta
    [bind ret raise get gets modify try_except lift_result remote_call
     after_request fst snd object_cache sent].

(** X5. When the full-text request answers with rows, [search] returns
    them as they are and sends nothing else.  When it answers without
    rows and the exact-match query that follows is answered, the rows of
    that query are returned, and its [SELECT] clause lists the requested
    columns (or the default ones, with the object's name field) joined
    by commas. *)
Theorem search_without_failure (sf : remote) (object_type query : string)
    (limit : Z) (fields : option (list string)) (st : cstate) :
  let sosl := sosl_query object_type query limit fields in
  let st0 := after_request (ReqSearch sosl) st in
  (forall row rows,
     sf_search sf (sent st) sosl = Ok (Some (row :: rows)) ->
     search sf object_type query limit fields st = (Ok (row :: rows), st0))
  /\ (forall m st1 r,
        (sf_search sf (sent st) sosl = Ok None
         \/ sf_search sf (sent st) sosl = Ok (Some [])) ->
        describe_object sf object_type st0 = (Ok m, st1) ->
        let name_field := name_field_of m in
        let soql :=
          like_soql (select_fields object_type name_field fields)
                    object_type name_field query limit in
        sf_query sf (sent st1) soql = Ok r ->
        search sf object_type query limit fields st
        = (Ok (qr_records r), after_request (ReqQuery soql) st1)).
Proof.
  destruct st as [c s]. cbv zeta. cbn [sent]. split.
  - intros row rows Hs. unfold search. run_client. now rewrite Hs.
  - intros m [c1 s1] r Hs Hd Hq. unfold search, _get_name_field.
    unfold after_request in Hd. cbn [sent object_cache] in Hd, Hq.
    run_client.
    destruct Hs as [-> | ->]; cbn [nonempty]; rewrite Hd, Hq; reflexivity.
Qed.

(** X6. [search_with_stats] returns the records [search] returns and
    raises exactly when [search] raises, with the same exception and the
    same client state; the count it adds is the [totalSize] some query
    reported, or else the number of records returned.  A failure while
    counting is never propagated. *)
Theorem search_with_stats_follows_search (sf : remote)
    (object_type query : string) (limit : Z) (fields : option (list string))
    (st : cstate) :
  match search sf object_type query limit fields st with
  | (Raise e, st1) =>
      search_with_stats sf object_type query limit fields st = (Raise e, st1)
  | (Ok results, st1) =>
      exists total_count st2,
        search_with_stats sf object_type query limit fields st
        = (Ok (results, total_count), st2)
        /\ (total_count = len results
            \/ exists h soql r,
                 sf_query sf h soql = Ok r
                 /\ qr_totalSize r = Some total_count)
  end.
Proof.
  unfold search_with_stats, _get_name_field, remote_call.
  unfold bind, try_except, ret, is_any. cbv beta.
  destruct (search sf object_type query limit fields st)
    as [[results|e] st1]; [|reflexivity].
  destruct (describe_object sf object_type st1) as [[m|e] st2].
  - destruct (sf_query sf (sent st2) _) as [r|e] eqn:Q.
    + destruct (qr_totalSize r) as [n|] eqn:T.
      * do 2 eexists. split; [reflexivity|]. right. eauto.
      * do 2 eexists. split; [reflexivity|]. now left.
    + do 2 eexists. split; [reflexivity|]. now left.
  - do 2 eexists. split; [reflexivity|]. now left.
Qed.

(** X7. [update_record] sends exactly one update request.  It answers
    [True] exactly when the status reported is 200 or 204, and turns
    every failure of the request that [except Exception] catches into a
    [ValueError] whose message starts with [Failed to update record: ]. *)
Theorem update_record_outcome (sf : remote) (object_type record_id : string)
    (data : dict) (st : cstate) :
  let out := update_record sf object_type record_id data st in
  snd out = after_request (ReqUpdate object_type record_id data) st
  /\ match sf_update sf (sent st) object_type record_id data with
     | Ok code => fst out = Ok true /\ (code = 200 \/ code = 204)%Z
                  \/ fst out = Ok false /\ (code <> 200 /\ code <> 204)%Z
     | Raise e =>
         fst out
         = Raise (if is_Exception e
                  then ValueError ("Failed to update record: " ++ exn_str e)
                  else e)
     end.
Proof.
  destruct st as [c s]. cbv zeta. cbn [sent]. unfold update_record.
  run_client.
  destruct (sf_update sf s object_type record_id data) as [code|e].
  - split; [reflexivity|]. cbn [fst].
    destruct (code =? 200)%Z eqn:A; [left|].
    + split; [reflexivity|]. left. now apply Z.eqb_eq.
    + destruct (code =? 204)%Z eqn:B; [left|right].
      * split; [reflexivity|]. right. now apply Z.eqb_eq.
      * split; [reflexivity|]. split; now apply Z.eqb_neq.
  - destruct (is_Exception e); split; reflexivity.
Qed.

(** X8. [get_field_history] sends exactly one query and never fails with
    an error that [except Exception] catches: a query that raises gives
    the empty list, which is also the answer for a record without
    history.  An empty field name asks for the history of all fields,
    as no field name does. *)
Theorem get_field_history_swallows_failure (sf : remote)
    (object_type record_id : string) (field_name : option string)
    (limit : Z) (st : cstate) :
  let soql := history_soql object_type record_id field_name limit in
  let out := get_field_history sf object_type record_id field_name limit st in
  snd out = after_request (ReqQuery soql) st
  /\ match sf_query sf (sent st) soql with
     | Ok r => fst out = Ok (qr_records r)
     | Raise e => fst out = (if is_Exception e then Ok [] else Raise e)
     end
  /\ history_soql object_type record_id (Some "") limit
     = history_soql object_type record_id None limit.
Proof.
  destruct st as [c s]. cbv zeta. cbn [sent]. unfold get_field_history.
  run_client.
  destruct (sf_query sf s _) as [r|e].
  - repeat split.
  - destruct (is_Exception e); repeat split.
Qed.









End RequestFacts.

(* ================================================================== *)
(** * Properties of the session's commands *)
(* ================================================================== *)

Module CommandFacts.
Import Py Client Session Notions ClientMore SessionMore MoreNotions
       FailureFacts.
Open Scope string_scope.

(** Reduce the projections of a computed run. *)
Ltac project :=
  cbv beta iota zeta delta
    [fst snd session client console stdin current_object current_records
     current_record related_records related_type navigation_stack
     navigation_path object_cache sent].


(** X11. [back] with an empty navigation stack: when search results, a
    record or a related list are present the session becomes the initial
    one; otherwise it is left as it is (an object type alone is kept).
    A second [back] changes nothing more. *)
Theorem back_at_root (w : world) :
  navigation_stack (session w) = [] ->
  let s := session w in
  let s' := session (snd (_go_back w)) in
  s' = (if nonempty (current_records s) || has_record (current_record s)
           || nonempty (related_records s)
        then initial else s)
  /\ session (snd (_go_back (snd (_go_back w)))) = s'.
Proof.
  destruct w as [[o rs r rel rt' st p] c con inp].
  cbn [session navigation_stack]. intros ->. cbv zeta.
  unfold _go_back. run_monad.
  destruct (nonempty rs || has_record r || nonempty rel) eqn:E; project.
  - split; reflexivity.
  - rewrite E. project. split; reflexivity.
Qed.


Lemma break_word_no_blank (o r : string) :
  no_blank o = true ->
  break_word (o ++ String " " r) = (o, String " " r).
Proof.
  induction o as [|c o IH]; cbn [no_blank append break_word].
  - reflexivity.
  - intros H. apply andb_prop in H. destruct H as [Hc Ho].
    apply negb_true_iff in Hc. rewrite Hc, (IH Ho). reflexivity.
Qed.

Lemma split_ws1_pair (o q : string) :
  o <> "" -> no_blank o = true -> lstrip q = q -> q <> "" ->
  split_ws1 (o ++ " " ++ q) = [o; q].
Proof.
  intros Ho Hb Hq Hn. unfold split_ws1.
  destruct o as [|c o]; [contradiction|].
  cbn [no_blank] in Hb. apply andb_prop in Hb. destruct Hb as [Hc Hb].
  apply negb_true_iff in Hc.
  change ((String c o ++ " " ++ q)) with (String c (o ++ String " " q)).
  cbn [lstrip]. rewrite Hc.
  cbn [break_word]. rewrite Hc, (break_word_no_blank o q Hb).
  change (lstrip (String " " q)) with (lstrip q). rewrite Hq.
  destruct q; [contradiction | reflexivity].
Qed.

(** X13. The arguments of a search without flags are read as their
    first word, the object type, and everything after the blank that
    follows it, the query: a query of several words reaches the client
    as one string, as typed, with the default limit of 200 and no custom
    fields. *)
Theorem search_arguments_round_trip (object_type query : string) :
  object_type <> "" -> no_blank object_type = true ->
  query <> "" -> lstrip query = query ->
  let args := object_type ++ " " ++ query in
  contains "--limit" args = false ->
  contains "--fields" args = false ->
  parse_limit args = Some (args, 200%Z)
  /\ parse_query args = inr (object_type, query, None).
Proof.
  intros Ho Hb Hn Hq args Hl Hf. unfold parse_limit, parse_query.
  rewrite Hl, Hf. split; [reflexivity|].
  unfold args. now rewrite split_ws1_pair.
Qed.

(** X14. [get] touches the object type and the current record only:
    search results, related list, navigation stack and breadcrumb stay
    as they were, so nothing is pushed for [back].  The object type is
    assigned before the record is fetched and stays assigned when the
    fetch fails. *)
Theorem get_assigns_object_and_record_only (sf : remote) (args : string)
    (w : world) :
  let s := session w in
  let s' := session (snd (_handle_get sf args w)) in
  current_records s' = current_records s
  /\ related_records s' = related_records s
  /\ related_type s' = related_type s
  /\ navigation_stack s' = navigation_stack s
  /\ navigation_path s' = navigation_path s
  /\ forall object_type record_id,
       args <> "" ->
       split_ws args = [object_type; record_id] ->
       s' = match fst (get_record sf object_type record_id (client w)) with
            | Ok r => with_record (Some r) (with_object (Some object_type) s)
            | Raise _ => with_object (Some object_type) s
            end.
Proof.
  destruct w as [[o rs r rel rt' st p] c con inp]. cbv zeta.
  unfold _handle_get.
  destruct (args =? "") eqn:A.
  - run_monad. project. repeat split. intros ? ? Hn.
    apply String.eqb_eq in A. contradiction.
  - destruct (split_ws args) as [|object_type [|record_id [|x l]]];
      run_monad; project; repeat split; try discriminate;
      try (intros o' id' _ H; inversion H; subst;
           unfold with_record, with_object);
      (destruct (get_record sf _ _ c) as [[?|e] ?];
       project; [reflexivity|]; destruct (is_Exception e); reflexivity).
Qed.

Lemma in_range_nth (n : Z) (l : list record) (x : record) :
  (1 <= n)%Z -> nth_error l (Z.to_nat (n - 1)) = Some x ->
  in_range (n - 1) l = true.
Proof.
  intros Hn Hx. unfold in_range, len.
  assert (H : (Z.to_nat (n - 1) < List.length l)%nat)
    by (apply nth_error_Some; congruence).
  apply andb_true_intro. split; [apply Z.leb_le | apply Z.ltb_lt]; lia.
Qed.

(** X15. [select] on search results pushes its frame before it fetches
    the record.  When the fetch fails the frame stays on the navigation
    stack and the rest of the session is as before; the exception leaves
    the handler, unless it is a [ValueError], which is reported as an
    invalid number. *)
Theorem select_failure_keeps_frame (rt : runtime) (sf : remote)
    (args : string) (n : Z) (w : world) (record : record)
    (object_type record_id : string) (e : exn) (c' : cstate) :
  int_of_str args = Some n ->
  (1 <= n)%Z ->
  nth_error (current_records (session w)) (Z.to_nat (n - 1)) = Some record ->
  dict_get "Id" record = Some (VStr record_id) ->
  current_object (session w) = Some object_type ->
  get_record sf object_type record_id (client w) = (Raise e, c') ->
  let s := session w in
  let out := _handle_select rt sf args w in
  session (snd out)
  = with_frame (FSearch (Some object_type) (current_records s)
                        (navigation_path s)) s
  /\ client (snd out) = c'
  /\ (if is_ValueError e
      then fst out = Ok tt
           /\ console (snd out)
              = (console w ++ [EvError "Please enter a valid number"])%list
      else fst out = Raise e /\ console (snd out) = console w).
Proof.
  destruct w as [[o rs r rel rt' st p] c con inp].
  cbn [session client current_records current_object].
  intros Hn H1 Hx Hid -> Hg. cbv zeta.
  unfold _handle_select, parse_int, index_key, as_object, as_id.
  rewrite Hn. run_monad. rewrite (in_range_nth n rs record H1 Hx), Hx, Hid.
  project. rewrite Hg. unfold with_frame.
  destruct (is_ValueError e); project; repeat split.
Qed.

Section Raises.
Variable A : Type.
Variable lt : A -> A -> result bool.
Variable P : exn -> Prop.
Hypothesis lt_raises : forall a b e, lt a b = Raise e -> P e.


End Raises.



Lemma lstrip_head (s : string) (c : ascii) (t : string) :
  lstrip s = String c t -> is_space c = false.
Proof.
  induction s as [|x s IH]; cbn [lstrip]; [discriminate|].
  destruct (is_space x) eqn:X; [exact IH|].
  intros H. inversion H; subst. exact X.
Qed.

Lemma rstrip_head (c : ascii) (t : string) :
  is_space c = false -> exists t', rstrip (String c t) = String c t'.
Proof.
  intros H. cbn [rstrip]. rewrite H.
  destruct (rstrip t); eexists; reflexivity.
Qed.

Lemma digit_is_lower (c : ascii) : is_digit c = true -> lower_ascii c = c.
Proof.
  destruct c as [[] [] [] [] [] [] [] []]; vm_compute;
    first [reflexivity | discriminate].
Qed.

(** A line whose first word starts with a letter is not a number. *)
Lemma first_word_not_digits (user_input word : string) (rest : list string)
    (c : ascii) (t : string) :
  split_ws1 user_input = word :: rest ->
  lower word = String c t -> is_digit c = false ->
  isdigit (strip user_input) = false.
Proof.
  unfold split_ws1, strip. intros Hs Hl Hc.
  destruct (lstrip user_input) as [|x u] eqn:L; [discriminate|].
  pose proof (lstrip_head _ _ _ L) as Hx.
  destruct (rstrip_head x u Hx) as [u' ->].
  cbn [break_word] in Hs. rewrite Hx in Hs.
  destruct (break_word u) as [w0 r0].
  assert (Hw : word = String x w0)
    by (destruct (lstrip r0); inversion Hs; reflexivity).
  subst word. cbn [lower] in Hl. inversion Hl; subst.
  cbn [isdigit all_digits].
  destruct (is_digit x) eqn:D; [|reflexivity].
  rewrite (digit_is_lower x D) in Hc. congruence.
Qed.

(** X17. The commands that need a current record are not dispatched
    without one: [view], [related], [fields], [relationships], [show],
    [update], [history], [parent], [ultimateparent] and [children], in
    any letter case and with any arguments, are answered with the
    unknown-command error, and nothing else changes.  The handlers' own
    [No record selected] message is not reached this way. *)
Theorem record_commands_need_a_record (rt : runtime) (sf : remote)
    (user_input word : string) (rest : list string) (w : world) :
  split_ws1 user_input = word :: rest ->
  In (lower word) record_only ->
  has_record (current_record (session w)) = false ->
  _execute_command rt sf user_input w
  = (Ok tt,
     shown_error ("Unknown command: " ++ lower word
                    ++ ". Type 'help' for available commands.") w).
Proof.
  intros Hs Hin Hr. destruct w as [[o rs r rel rt' st p] c con inp].
  cbn [session current_record] in Hr.
  assert (Hd : isdigit (strip user_input) = false).
  { cbn [In record_only] in Hin.
    repeat (destruct Hin as [Hin|Hin];
            [symmetry in Hin;
             apply (first_word_not_digits _ _ _ _ _ Hs Hin); reflexivity|]).
    contradiction. }
  unfold _execute_command, shown_error, shown. run_monad.
  rewrite Hd, Hs. cbv beta iota zeta.
  cbn [In record_only] in Hin.
  repeat (destruct Hin as [Hin|Hin];
          [rewrite <- Hin;
           cbn [String.eqb Ascii.eqb Bool.eqb orb andb];
           rewrite Hr; reflexivity|]).
  contradiction.
Qed.


(** X19. Building the completion words never fails, whatever the remote
    store does, and changes neither the session nor the display nor the
    pending input.  The basic commands are always offered. *)
Theorem completer_never_fails (sf : remote) (w : world) :
  let out := _get_completer sf w in
  (exists words, fst out = Ok words
                 /\ forall c, In c base_commands -> In c words)
  /\ session (snd out) = session w
  /\ console (snd out) = console w
  /\ stdin (snd out) = stdin w.
Proof.
  destruct w as [[o rs r rel rt' st p] c con inp]. cbv zeta.
  unfold _get_completer, get_child_relationships, get_field_names, as_object.
  run_monad.
  assert (finish : forall (l : list string) (P : Prop),
             P ->
             (exists words,
                Ok (base_commands ++ l)%list = Ok words
                /\ forall c0, In c0 base_commands -> In c0 words) /\ P).
  { intros l P HP. split; [|exact HP].
    exists (base_commands ++ l)%list. split; [reflexivity|].
    intros c0 H. apply in_or_app. now left. }
  destruct (nonempty rel); [project; apply finish; repeat split; trivial|].
  destruct (has_record r).
  - destruct o as [o|]; project;
      [|apply finish; repeat split; trivial].
    destruct (describe_object sf o c) as [[m|e] c1]; project;
      apply finish; repeat split; trivial.
  - destruct (nonempty rs); [project; apply finish; repeat split; trivial|].
    destruct (has_object o) eqn:O;
      [|project; apply finish; repeat split; trivial].
    destruct o as [o|]; [|discriminate]. project.
    destruct (describe_object sf o c) as [[m|e] c1]; project;
      apply finish; repeat split; trivial.
Qed.

End CommandFacts.

(* ================================================================== *)
(** * Properties of the record context: relationships and updates *)
(* ================================================================== *)

Module ContextFacts.
Import Py Client Session Notions ClientMore SessionMore MoreNotions
       FailureFacts CommandFacts.
Open Scope string_scope.

Lemma append_assoc (a b c : string) : (a ++ b) ++ c = a ++ (b ++ c).
Proof. induction a as [|x a IH]; cbn [append]; [|rewrite IH]; reflexivity. Qed.

Lemma length_append (a b : string) :
  String.length (a ++ b) = (String.length a + String.length b)%nat.
Proof.
  induction a as [|x a IH]; cbn [append String.length]; [|rewrite IH];
    reflexivity.
Qed.

Lemma endswith_append (a p : string) : endswith (a ++ p) p = true.
Proof.
  induction a as [|x a IH]; cbn [append].
  - destruct p; cbn [endswith]; rewrite String.eqb_refl; reflexivity.
  - cbn [endswith]. rewrite IH. apply orb_true_r.
Qed.

Lemma endswith_inv (s p : string) :
  endswith s p = true -> exists a, s = a ++ p.
Proof.
  induction s as [|x s IH]; cbn [endswith]; intros H;
    apply orb_prop in H; destruct H as [H|H].
  - apply String.eqb_eq in H. subst. now exists "".
  - discriminate.
  - apply String.eqb_eq in H. subst. now exists "".
  - destruct (IH H) as [a ->]. now exists (String x a).
Qed.

Lemma drop_last_append (a : string) (c : ascii) :
  drop_last (a ++ String c "") = a.
Proof.
  induction a as [|x a IH]; cbn [append]; [reflexivity|].
  cbn [drop_last]. rewrite IH.
  destruct a; reflexivity.
Qed.

Lemma endswith_other (a : string) : endswith (a ++ "__r") "__c" = false.
Proof.
  induction a as [|x a IH]; [reflexivity|].
  cbn [append endswith]. rewrite IH, orb_false_r.
  apply String.eqb_neq. intros H. apply (f_equal String.length) in H.
  cbn [String.length] in H. rewrite length_append in H.
  cbn [String.length] in H. lia.
Qed.

(** X20. Completion and [cd] agree on custom relationships.  For a
    relationship name that ends in [__r] the completer also offers the
    name with [c] for its last letter; that alias ends in [__c], [cd]
    maps it back to the relationship name it was made from, and when
    the records of the relationship can be fetched, [cd] with the alias
    does exactly what [cd] with the relationship name does. *)
Theorem cd_accepts_completer_alias (rt : runtime) (sf : remote)
    (args_r args_c : string) (w : world) :
  let name := strip args_r in
  let alias := drop_last name ++ "c" in
  endswith name "__r" = true ->
  strip args_c = alias ->
  (forall names, In name names -> In alias (with_aliases names))
  /\ endswith alias "__c" = true
  /\ drop_last alias ++ "r" = name
  /\ forall related w',
       fetch_related rt sf (session w) name w = (Ok related, w') ->
       _handle_cd rt sf args_c w = _handle_cd rt sf args_r w.
Proof.
  cbv zeta. intros Hr Hc.
  destruct (endswith_inv _ _ Hr) as [a Ha].
  assert (D : drop_last (strip args_r) = a ++ "__").
  { rewrite Ha. change "__r" with ("__" ++ "r").
    rewrite <- append_assoc. apply drop_last_append. }
  assert (E : endswith (drop_last (strip args_r) ++ "c") "__c" = true).
  { rewrite D, append_assoc. apply endswith_append. }
  assert (B : drop_last (drop_last (strip args_r) ++ "c") ++ "r"
              = strip args_r).
  { rewrite D, drop_last_append, Ha, append_assoc. reflexivity. }
  split; [|split; [exact E | split; [exact B|]]].
  - intros names Hin. unfold with_aliases. apply in_or_app. right.
    apply in_map_iff. exists (strip args_r). split; [reflexivity|].
    apply filter_In. now split.
  - intros related w' Hf.
    assert (N : endswith (strip args_r) "__c" = false)
      by (rewrite Ha; apply endswith_other).
    destruct w as [[o rs r rel rt' st p] c con inp].
    cbn [session] in Hf.
    unfold _handle_cd. run_monad.
    rewrite Hc, E, B, N.
    destruct (has_record r); cbn [negb]; cbv beta iota; [|reflexivity].
    rewrite Hf. reflexivity.
Qed.

(** X21. The table [select] uses to turn a relationship name into the
    object type it fetches from, and the table [get_related_records]
    falls back on to choose the child type it queries, agree on every
    name but [Invoices], which only the second one has: a record
    selected from a list obtained through that fallback is fetched from
    the type that was queried, except for [Invoices], whose records were
    queried from [Invoice] and are fetched from [Invoices]. *)
Theorem plural_tables_agree_but_on_invoices (k : string) :
  (k <> "Invoices" ->
   table_get k select_object_mapping = table_get k object_mapping
   /\ actual_object_of (Some k)
      = Some (match table_get k object_mapping with
              | Some o => o
              | None => k
              end))
  /\ table_get "Invoices" object_mapping = Some "Invoice"
  /\ actual_object_of (Some "Invoices") = Some "Invoices".
Proof.
  split; [|split; reflexivity].
  intros Hk. apply not_eq_sym in Hk. apply String.eqb_neq in Hk.
  assert (T : table_get k select_object_mapping
              = table_get k object_mapping).
  { unfold table_get, select_object_mapping, object_mapping.
    cbn [find fst]. rewrite Hk.
    repeat (destruct (_ =? k)%string; [reflexivity|]). reflexivity. }
  split; [exact T|]. unfold actual_object_of. rewrite T.
  now destruct (table_get k object_mapping).
Qed.





End ContextFacts.

(* ================================================================== *)
(** * Properties of the tables displayed *)
(* ================================================================== *)

Module DisplayFacts.
Import Py Client Session Notions MoreNotions Display FailureFacts
       CommandFacts.
Open Scope string_scope.

Lemma row_data_shape (rt : runtime) (field_names : list string) (idx : Z)
    (record : record) (row : list value) :
  row_data rt field_names idx record = Ok row ->
  exists shown_id cells,
    row = VStr (str_of_Z idx) :: shown_id :: cells
    /\ List.length cells = List.length field_names
    /\ (forall record_id,
          dict_get "Id" record = Some (VStr record_id) ->
          make_id_clickable rt (VStr record_id) = Ok shown_id).
Proof.
  unfold row_data. intros H.
  destruct (if truthy (dict_get_or "Id" (VStr "") record)
            then make_id_clickable rt (dict_get_or "Id" (VStr "") record)
            else Ok (VStr "")) as [clickable|e] eqn:C; [|discriminate].
  inversion H; subst. do 2 eexists. split; [reflexivity|].
  split; [apply length_map|].
  intros record_id Hid. unfold dict_get_or in C. rewrite Hid in C.
  destruct (truthy (VStr record_id)) eqn:T; [exact C|].
  unfold make_id_clickable. rewrite T. inversion C; subst.
  cbn [truthy] in T. apply negb_false_iff in T. apply String.eqb_eq in T.
  now subst.
Qed.

Lemma rows_from_nth (rt : runtime) (field_names : list string)
    (records : list record) :
  forall (idx : Z) (rows : list (list value)) (k : nat) (record : record),
    rows_from rt field_names idx records = Ok rows ->
    nth_error records k = Some record ->
    exists row,
      nth_error rows k = Some row
      /\ row_data rt field_names (idx + Z.of_nat k) record = Ok row.
Proof.
  induction records as [|r records IH]; intros idx rows k record Hr Hk.
  - destruct k; discriminate.
  - cbn [rows_from] in Hr.
    destruct (row_data rt field_names idx r) as [row|e] eqn:R;
      [|discriminate].
    destruct (rows_from rt field_names (idx + 1) records) as [rows'|e] eqn:F;
      [|discriminate].
    inversion Hr; subst. destruct k as [|k]; cbn [nth_error] in *.
    + inversion Hk; subst. exists row. split; [reflexivity|].
      now rewrite Z.add_0_r.
    + destruct (IH _ _ _ _ F Hk) as [row' [H1 H2]]. exists row'.
      split; [exact H1|]. rewrite <- H2. f_equal. lia.
Qed.

Lemma rows_from_length (rt : runtime) (field_names : list string)
    (records : list record) :
  forall (idx : Z) (rows : list (list value)),
    rows_from rt field_names idx records = Ok rows ->
    List.length rows = List.length records
    /\ Forall (fun row => List.length row = (2 + List.length field_names)%nat)
              rows.
Proof.
  induction records as [|r records IH]; intros idx rows Hr;
    cbn [rows_from] in Hr.
  - inversion Hr; subst. split; [reflexivity | constructor].
  - destruct (row_data rt field_names idx r) as [row|e] eqn:R;
      [|discriminate].
    destruct (rows_from rt field_names (idx + 1) records) as [rows'|e] eqn:F;
      [|discriminate].
    inversion Hr; subst. destruct (IH _ _ F) as [L A].
    split; [cbn [List.length]; now rewrite L|].
    constructor; [|exact A].
    destruct (row_data_shape _ _ _ _ _ R) as [i [cells [-> [Hl _]]]].
    cbn [List.length]. now rewrite Hl.
Qed.

(** X24. The table of search results, when it is displayed, has one row
    for each record, in the order of the list, and every row has as many
    cells as the table has columns, whatever fields the records after
    the first have or lack.  The number in a row's first cell is the
    number that selects the record: [select] with that number fetches
    the record whose identifier the row shows. *)
Theorem row_number_selects_its_record (rt : runtime) (sf : remote)
    (w : world) (args : string) (n : Z) (record : record)
    (object_type record_id : string) (total_count : option Z)
    (shown : list printed) :
  let records := current_records (session w) in
  int_of_str args = Some n ->
  (1 <= n)%Z ->
  nth_error records (Z.to_nat (n - 1)) = Some record ->
  dict_get "Id" record = Some (VStr record_id) ->
  current_object (session w) = Some object_type ->
  display_search_results rt records (Some object_type) total_count
  = Ok shown ->
  (exists title columns rows shown_id cells,
     In (Table title columns rows) shown
     /\ List.length rows = List.length records
     /\ Forall (fun row => List.length row = List.length columns) rows
     /\ nth_error rows (Z.to_nat (n - 1))
        = Some (VStr (str_of_Z n) :: shown_id :: cells)
     /\ make_id_clickable rt (VStr record_id) = Ok shown_id)
  /\ client (snd (_handle_select rt sf args w))
     = after_request (ReqGet object_type record_id) (client w).
Proof.
  destruct w as [[o rs r rel rt' st p] [cache log] con inp].
  cbn [session client current_records current_object]. cbv zeta.
  intros Hn H1 Hx Hid -> Hd. split.
  - unfold display_search_results in Hd.
    destruct rs as [|first rest]; [destruct (Z.to_nat (n - 1)); discriminate|].
    destruct (rows_from rt (dynamic_columns first) 1 (first :: rest))
      as [rows|e] eqn:R; [|discriminate].
    inversion Hd; subst. clear Hd.
    destruct (rows_from_length _ _ _ _ _ R) as [L A].
    destruct (rows_from_nth _ _ _ _ _ _ _ R Hx) as [row [Hrow Hdata]].
    destruct (row_data_shape _ _ _ _ _ Hdata) as [i [cells [-> [Hl Hi]]]].
    exists (str_of_opt (Some object_type) ++ " Search Results"),
           ("#" :: "ID" :: dynamic_columns first), rows, i, cells.
    split; [right; left; reflexivity|]. split; [exact L|].
    split; [exact A|]. split; [|now apply Hi].
    rewrite Hrow.
    replace (1 + Z.of_nat (Z.to_nat (n - 1)))%Z with n
      by (rewrite Z2Nat.id; lia).
    reflexivity.
  - unfold _handle_select, parse_int, index_key, as_object, as_id,
      get_record, remote_call, after_request.
    rewrite Hn. run_monad.
    rewrite (in_range_nth n rs record H1 Hx), Hx, Hid. project.
    destruct (sf_get sf log object_type record_id) as [x|e]; project.
    + unfold relationships_hint.
      destruct (find _ RELATIONSHIPS) as [[? ?]|]; run_monad; reflexivity.
    + destruct (is_ValueError e); reflexivity.
Qed.




End DisplayFacts.

(* ================================================================== *)
(** * Properties of the detailed description of an object *)
(* ================================================================== *)

Module DescribeFacts.
Import Py Client Describe.
Open Scope string_scope.

Lemma categorize_bucket (c : category) (b : buckets) (field : field_meta) :
  bucket c (categorize b field)
  = (bucket c b
       ++ (if category_eqb (category_of field) c then [info_of field]
           else []))%list.
Proof.
  unfold categorize, category_of.
  destruct (fm_calculated field);
    [destruct c; cbn [bucket category_eqb formula_fields lookup_fields
                      custom_fields system_fields standard_fields];
     now rewrite ?app_nil_r|].
  destruct (nonempty (fm_referenceTo field));
    [destruct c; cbn [bucket category_eqb formula_fields lookup_fields
                      custom_fields system_fields standard_fields];
     now rewrite ?app_nil_r|].
  destruct (fm_custom field);
    [destruct c; cbn [bucket category_eqb formula_fields lookup_fields
                      custom_fields system_fields standard_fields];
     now rewrite ?app_nil_r|].
  destruct (mem (fm_name field) system_names);
    destruct c; cbn [bucket category_eqb formula_fields lookup_fields
                     custom_fields system_fields standard_fields];
    now rewrite ?app_nil_r.
Qed.

Lemma fold_categorize_bucket (c : category) (fields : list field_meta) :
  forall b,
    bucket c (fold_left categorize fields b)
    = (bucket c b
         ++ map info_of
              (filter (fun f => category_eqb (category_of f) c) fields))%list.
Proof.
  induction fields as [|f fields IH]; intros b; cbn [fold_left filter map].
  - now rewrite app_nil_r.
  - rewrite IH, categorize_bucket.
    destruct (category_eqb (category_of f) c); cbn [map];
      now rewrite <- app_assoc.
Qed.

Lemma partition_by_category (fields : list field_meta) :
  Permutation
    (filter (fun f => category_eqb (category_of f) Standard) fields
       ++ filter (fun f => category_eqb (category_of f) Custom) fields
       ++ filter (fun f => category_eqb (category_of f) System) fields
       ++ filter (fun f => category_eqb (category_of f) Formula) fields
       ++ filter (fun f => category_eqb (category_of f) Lookup) fields)
    fields.
Proof.
  induction fields as [|f fields IH]; cbn [filter]; [constructor|].
  destruct (category_of f); cbn [category_eqb app].
  - (* Formula *)
    rewrite !app_assoc. apply Permutation_sym.
    apply Permutation_cons_app. rewrite <- !app_assoc.
    now apply Permutation_sym.
  - (* Lookup *)
    rewrite !app_assoc. apply Permutation_sym.
    apply Permutation_cons_app. rewrite <- !app_assoc.
    now apply Permutation_sym.
  - (* Custom *)
    apply Permutation_sym. apply Permutation_cons_app.
    now apply Permutation_sym.
  - (* System *)
    rewrite app_assoc. apply Permutation_sym.
    apply Permutation_cons_app. rewrite <- app_assoc.
    now apply Permutation_sym.
  - (* Standard *)
    now constructor.
Qed.

(** X25. [describe_detailed] puts every field of the object in exactly
    one of its five lists, keeping the order of the metadata within
    each: formula when the field is calculated, else lookup when it
    refers to other objects, else custom, else system or standard.  The
    total it reports is the sum of the four counts it reports and of the
    number of system fields, which has no count of its own.  The child
    relationships it lists are those [get_child_relationships] returns. *)
Theorem describe_detailed_partitions_fields (m : object_meta) :
  let d := describe_detailed_of m in
  let b := d_fields d in
  (forall c, bucket c b
             = map info_of
                 (filter (fun f => category_eqb (category_of f) c)
                         (om_fields m)))
  /\ Permutation
       (standard_fields b ++ custom_fields b ++ system_fields b
          ++ formula_fields b ++ lookup_fields b)%list
       (map info_of (om_fields m))
  /\ n_total_fields (d_counts d)
     = (n_standard_fields (d_counts d) + n_custom_fields (d_counts d)
        + n_formula_fields (d_counts d) + n_lookup_fields (d_counts d)
        + len (system_fields b))%Z
  /\ Forall (fun i => fi_calculated i = false /\ fi_referenceTo i <> [])
            (lookup_fields b)
  /\ d_child d
     = map (fun r => (Some (rel_name r), rel_object r, rel_field r))
           (relationships_of (basic m)).
Proof.
  cbv zeta.
  assert (B : forall c,
             bucket c (d_fields (describe_detailed_of m))
             = map info_of
                 (filter (fun f => category_eqb (category_of f) c)
                         (om_fields m))).
  { intros c. unfold describe_detailed_of. cbn [d_fields].
    rewrite fold_categorize_bucket. destruct c; reflexivity. }
  assert (P : Permutation
       (standard_fields (d_fields (describe_detailed_of m))
          ++ custom_fields (d_fields (describe_detailed_of m))
          ++ system_fields (d_fields (describe_detailed_of m))
          ++ formula_fields (d_fields (describe_detailed_of m))
          ++ lookup_fields (d_fields (describe_detailed_of m)))%list
       (map info_of (om_fields m))).
  { pose proof (B Standard) as B1. pose proof (B Custom) as B2.
    pose proof (B System) as B3. pose proof (B Formula) as B4.
    pose proof (B Lookup) as B5. cbn [bucket] in B1, B2, B3, B4, B5.
    rewrite B1, B2, B3, B4, B5, <- !map_app.
    apply Permutation_map, partition_by_category. }
  split; [exact B|]. split; [exact P|]. split; [|split].
  - apply Permutation_length in P. rewrite !length_app, length_map in P.
    unfold describe_detailed_of in *. cbn [d_counts d_fields n_total_fields
      n_standard_fields n_custom_fields n_formula_fields n_lookup_fields] in *.
    unfold len. lia.
  - pose proof (B Lookup) as B5. cbn [bucket] in B5. rewrite B5.
    apply Forall_forall. intros i Hi. apply in_map_iff in Hi.
    destruct Hi as [f [<- Hf]]. apply filter_In in Hf. destruct Hf as [_ Hc].
    unfold category_of in Hc. cbn [info_of fi_calculated fi_referenceTo].
    destruct (fm_calculated f); [discriminate|].
    destruct (fm_referenceTo f); [|split; [reflexivity | discriminate]].
    cbn [nonempty] in Hc. destruct (fm_custom f); [discriminate|].
    destruct (mem (fm_name f) system_names); discriminate.
  - unfold describe_detailed_of, child_relationships_of, relationships_of,
      basic. cbn [d_child md_childRelationships].
    induction (om_childRelationships m) as [|c l IH]; [reflexivity|].
    cbn [flat_map map]. rewrite map_app, IH. f_equal.
    destruct (cr_relationshipName c) as [[|x n]|]; reflexivity.
Qed.

End DescribeFacts.

(* ================================================================== *)
(** * Properties of the start-up checks *)
(* ================================================================== *)

Module StartupFacts.
Import Py Client Startup.
Open Scope string_scope.

(** X28. [Config.validate] is stricter than the client's own check.
    It answers valid exactly when nothing is missing, that is when the
    user name, the password, the security token and the domain are all
    set and not empty; the client is then constructed with these four
    values.  The client itself wants only the first three: with the
    domain unset, validation fails naming [SF_DOMAIN] alone, while the
    client logs in on the domain [login].  When one of the three is
    missing or empty the client raises a [ValueError] without logging
    in. *)
Theorem validation_is_stricter_than_the_client (e : env)
    (Salesforce : credentials -> login) :
  (fst (validate e) = true <-> snd (validate e) = [])
  /\ (fst (validate e) = true <->
      forall key, In key required_keys -> is_given e key = true)
  /\ (fst (validate e) = true ->
      exists c,
        e "SF_USERNAME" = Some (username c)
        /\ e "SF_PASSWORD" = Some (password c)
        /\ e "SF_SECURITY_TOKEN" = Some (security_token c)
        /\ e "SF_DOMAIN" = Some (domain c)
        /\ __init__ e Salesforce = connected (Salesforce c))
  /\ (is_given e "SF_USERNAME" = true -> is_given e "SF_PASSWORD" = true ->
      is_given e "SF_SECURITY_TOKEN" = true -> e "SF_DOMAIN" = None ->
      validate e = (false, ["SF_DOMAIN"])
      /\ exists c, domain c = "login"
                   /\ __init__ e Salesforce = connected (Salesforce c))
  /\ (is_given e "SF_USERNAME" = false \/ is_given e "SF_PASSWORD" = false
      \/ is_given e "SF_SECURITY_TOKEN" = false ->
      exists msg, __init__ e Salesforce = Raise (ValueError msg)).
Proof.
  assert (G : forall key, is_given e key = true ->
                          exists s, e key = Some s /\ or_empty (e key) = s).
  { intros key H. unfold is_given in H.
    destruct (e key) as [[|c s]|]; try discriminate. eauto. }
  assert (V : fst (validate e) = true <->
              forall key, In key required_keys -> is_given e key = true).
  { unfold validate, required_keys. cbn [filter fst In].
    destruct (is_given e "SF_USERNAME") eqn:U;
      destruct (is_given e "SF_PASSWORD") eqn:P;
      destruct (is_given e "SF_SECURITY_TOKEN") eqn:T;
      destruct (is_given e "SF_DOMAIN") eqn:D;
      cbn [negb List.length Nat.eqb];
      (split; [intros H; try discriminate;
               intros key [<-|[<-|[<-|[<-|[]]]]]; assumption
              | intros H; try reflexivity ]).
    all: pose proof (H "SF_USERNAME" (or_introl eq_refl));
      pose proof (H "SF_PASSWORD" (or_intror (or_introl eq_refl)));
      pose proof (H "SF_SECURITY_TOKEN"
                    (or_intror (or_intror (or_introl eq_refl))));
      pose proof (H "SF_DOMAIN"
                    (or_intror (or_intror (or_intror (or_introl eq_refl)))));
      congruence. }
  split; [|split; [exact V|split; [|split]]].
  - unfold validate. cbn [fst snd].
    destruct (filter _ required_keys); cbn [List.length Nat.eqb];
      split; congruence.
  - intros H0. pose proof (proj1 V H0) as H. clear H0.
    destruct (G "SF_USERNAME" (H _ (or_introl eq_refl))) as [u [Eu Ou]].
    destruct (G "SF_PASSWORD" (H _ (or_intror (or_introl eq_refl))))
      as [p [Ep Op]].
    destruct (G "SF_SECURITY_TOKEN"
                (H _ (or_intror (or_intror (or_introl eq_refl)))))
      as [t [Et Ot]].
    destruct (G "SF_DOMAIN"
                (H _ (or_intror (or_intror (or_intror (or_introl eq_refl))))))
      as [d [Ed Od]].
    exists {| username := u; password := p; security_token := t;
              domain := d |}.
    cbn [username password security_token domain].
    repeat (split; [assumption|]).
    unfold __init__.
    rewrite (H "SF_USERNAME"), (H "SF_PASSWORD"), (H "SF_SECURITY_TOKEN");
      try (cbn [In required_keys]; tauto).
    cbn [andb negb]. rewrite Ou, Op, Ot, Ed.
    destruct (Salesforce _); reflexivity.
  - intros U P T D. split.
    + assert (Dg : is_given e "SF_DOMAIN" = false)
        by (unfold is_given; now rewrite D).
      unfold validate, required_keys. cbn [filter].
      rewrite U, P, T, Dg. reflexivity.
    + exists {| username := or_empty (e "SF_USERNAME");
                password := or_empty (e "SF_PASSWORD");
                security_token := or_empty (e "SF_SECURITY_TOKEN");
                domain := "login" |}.
      split; [reflexivity|]. unfold __init__. rewrite U, P, T, D.
      cbn [andb negb]. destruct (Salesforce _); reflexivity.
  - intros H. unfold __init__. eexists.
    destruct H as [H|[H|H]]; rewrite H; rewrite ?andb_false_r;
      reflexivity.
Qed.

End StartupFacts.

(* ================================================================== *)
(** * The further properties at the sample organisation *)
(* ================================================================== *)

Module MoreInstances.
Import Py Client Session Notions Sample MoreSample ClientMore SessionMore
       MoreNotions Display.
Open Scope string_scope.

(** [back] from the results of a search, with nothing to go back to. *)
Lemma back_at_root_at_results :
  navigation_stack (session (world_of results_shown [])) = []
  /\ session (snd (_go_back (world_of results_shown []))) = initial.
Proof.
  split; [reflexivity|].
  exact (proj1 (CommandFacts.back_at_root (world_of results_shown [])
                  eq_refl)).
Defined.


(** A query of two words reaches the client with its inner blank. *)
Lemma search_arguments_round_trip_at_acme :
  no_blank "Account" = true
  /\ lstrip "Acme  Corp " = "Acme  Corp "
  /\ contains "--limit" "Account Acme  Corp " = false
  /\ contains "--fields" "Account Acme  Corp " = false
  /\ parse_query "Account Acme  Corp "
     = inr ("Account", "Acme  Corp ", None).
Proof.
  do 4 (split; [reflexivity|]).
  refine (proj2 (CommandFacts.search_arguments_round_trip "Account"
                   "Acme  Corp " _ eq_refl _ eq_refl eq_refl eq_refl));
    discriminate.
Defined.

(** [select 1] while the store is down. *)
Lemma select_failure_keeps_frame_at_down :
  int_of_str "1" = Some 1%Z
  /\ nth_error (current_records results_shown) (Z.to_nat (1 - 1)) = Some acme
  /\ dict_get "Id" acme = Some (VStr "001A")
  /\ fst (get_record sf_down "Account" "001A" fresh_client)
     = Raise (RemoteError "down")
  /\ navigation_stack
       (session (snd (_handle_select rt0 sf_down "1"
                        (world_of results_shown []))))
     = [FSearch (Some "Account") [acme; holding] []]
  /\ fst (_handle_select rt0 sf_down "1" (world_of results_shown []))
     = Raise (RemoteError "down").
Proof.
  do 4 (split; [reflexivity|]). split.
  - exact (f_equal navigation_stack
      (proj1 (CommandFacts.select_failure_keeps_frame rt0 sf_down "1" 1
                (world_of results_shown []) acme "Account" "001A"
                (RemoteError "down") _ eq_refl (Z.le_refl 1) eq_refl eq_refl
                eq_refl eq_refl))).
  - exact (proj1 (proj2 (proj2
      (CommandFacts.select_failure_keeps_frame rt0 sf_down "1" 1
         (world_of results_shown []) acme "Account" "001A"
         (RemoteError "down") _ eq_refl (Z.le_refl 1) eq_refl eq_refl
         eq_refl eq_refl)))).
Defined.

(** [View] typed before any record is selected. *)
Lemma record_commands_need_a_record_at_view :
  split_ws1 "View" = ["View"]
  /\ In (lower "View") record_only
  /\ has_record (current_record results_shown) = false
  /\ console (snd (_execute_command rt0 sf_up "View"
                     (world_of results_shown [])))
     = [EvError "Unknown command: view. Type 'help' for available commands."].
Proof.
  assert (I : In (lower "View") record_only) by (now left).
  split; [reflexivity|]. split; [exact I|]. split; [reflexivity|].
  exact (f_equal (fun out => console (snd out))
    (CommandFacts.record_commands_need_a_record rt0 sf_up "View" "View" []
       (world_of results_shown []) eq_refl I eq_refl)).
Defined.

(** The alias of [Quotes__r]. *)
Lemma cd_accepts_completer_alias_at_quotes :
  endswith (strip "Quotes__r") "__r" = true
  /\ strip "Quotes__c" = drop_last (strip "Quotes__r") ++ "c"
  /\ In "Quotes__c" (with_aliases ["Contacts"; "Quotes__r"])
  /\ _handle_cd rt0 sf_up "Quotes__c" (world_of record_shown [])
     = _handle_cd rt0 sf_up "Quotes__r" (world_of record_shown []).
Proof.
  do 2 (split; [reflexivity|]). split.
  - apply (proj1 (ContextFacts.cd_accepts_completer_alias rt0 sf_up "Quotes__r"
                    "Quotes__c" (world_of record_shown []) eq_refl eq_refl)).
    right. now left.
  - refine (proj2 (proj2 (proj2
      (ContextFacts.cd_accepts_completer_alias rt0 sf_up "Quotes__r"
         "Quotes__c" (world_of record_shown []) eq_refl eq_refl))) _ _ _).
    reflexivity.
Defined.

(** The first row of the results for [Account]. *)
Lemma row_number_selects_its_record_at_first :
  int_of_str "1" = Some 1%Z
  /\ nth_error (current_records results_shown) (Z.to_nat (1 - 1)) = Some acme
  /\ dict_get "Id" acme = Some (VStr "001A")
  /\ (exists shown,
        display_search_results rt0 (current_records results_shown)
          (Some "Account") None = Ok shown)
  /\ client (snd (_handle_select rt0 sf_up "1" (world_of results_shown [])))
     = after_request (ReqGet "Account" "001A") fresh_client.
Proof.
  do 3 (split; [reflexivity|]). split.
  - eexists. reflexivity.
  - refine (proj2
      (DisplayFacts.row_number_selects_its_record rt0 sf_up
         (world_of results_shown []) "1" 1 acme "Account" "001A" None _
         eq_refl (Z.le_refl 1) eq_refl eq_refl eq_refl _)).
    reflexivity.
Defined.

(** A search that finds rows at once, and one that falls back on the
    exact-match query. *)
Lemma search_without_failure_at_sample :
  fst (search sf_up "Contact" "Ann" 200 None fresh_client)
  = Ok [acme; holding]
  /\ search sf_no_rows "Contact" "Ann" 200 None fresh_client
     = (Ok [ann; bob],
        after_request
          (ReqQuery (like_soql "Id, Name" "Contact" "Name" "Ann" 200))
          (snd (describe_object sf_no_rows "Contact"
                  (after_request
                     (ReqSearch (sosl_query "Contact" "Ann" 200 None))
                     fresh_client)))).
Proof.
  split.
  - exact (f_equal fst
      (proj1 (RequestFacts.search_without_failure sf_up "Contact" "Ann" 200
                None fresh_client) acme [holding] eq_refl)).
  - exact (proj2 (RequestFacts.search_without_failure sf_no_rows "Contact"
                    "Ann" 200 None fresh_client)
             contact_metadata _
             {| qr_records := [ann; bob]; qr_totalSize := Some 2%Z |}
             (or_intror eq_refl) eq_refl eq_refl).
Defined.

(** [get] of a contact while an account is shown, with the store up and
    with the store down. *)
Lemma get_assigns_object_and_record_only_at_contact :
  session (snd (_handle_get sf_up "Contact 003A" (world_of record_shown [])))
  = with_record (Some ann) (with_object (Some "Contact") record_shown)
  /\ session (snd (_handle_get sf_down "Contact 003A"
                     (world_of record_shown [])))
     = with_object (Some "Contact") record_shown.
Proof.
  assert (N : "Contact 003A" <> "") by discriminate.
  split.
  - exact (proj2 (proj2 (proj2 (proj2 (proj2
      (CommandFacts.get_assigns_object_and_record_only sf_up "Contact 003A"
         (world_of record_shown []))))))
      "Contact" "003A" N eq_refl).
  - exact (proj2 (proj2 (proj2 (proj2 (proj2
      (CommandFacts.get_assigns_object_and_record_only sf_down
         "Contact 003A" (world_of record_shown []))))))
      "Contact" "003A" N eq_refl).
Defined.

End MoreInstances.
